(** * ScannerTrigger demo script (demo.py): shallow embedding and properties

    The script is straight-line orchestration around external libraries
    (PsychoPy's gui/visual/event/core/logging, the scannertrigger module,
    numpy and matplotlib).  It is embedded as a function from a [World]
    (everything the script reads from outside: the dialog's answers, what
    the trigger library does, key presses, wall-clock readings) to the
    list of library calls it makes, in order, together with the way the
    interpreter ends (core.quit(), an uncaught exception, or a loop that
    has not ended yet).

    Conventions.
    - Time stamps are Python floats; they are modelled as rationals [Q]
      (every finite float is one).  Comparisons are exact; subtraction is
      the exact one, so float rounding is not modelled.
    - A call that the script makes on an external library is an [Event];
      the values the call returns come from the [World].
    - Python exceptions carry their class, so that [except Exception]
      catches what Python catches. *)

From Stdlib Require Import List ZArith QArith Qround String Ascii Bool Lia Arith.
From Stdlib Require Decimal DecimalString DecimalZ DecimalPos.
Import ListNotations.
Open Scope string_scope.

(** ** Python values, dictionaries, exceptions *)

Set Warnings "-register-all".

Module Py.

(** The values that appear in the script's dictionaries. *)
Inductive PyVal : Type :=
| PNone
| PBool (b : bool)
| PInt (z : Z)
| PStr (s : string)
| PList (l : list PyVal)
| PDict (d : list (string * PyVal))
| PConst (qualified_name : string).   (* a constant of a library, s.RISING *)

(** A dict literal, in source order. *)
Definition dict := list (string * PyVal).

Fixpoint getitem (d : dict) (k : string) : option PyVal :=
  match d with
  | [] => None
  | (k', v) :: d' => if String.eqb k' k then Some v else getitem d' k
  end.

(** d[k] = v on a dict that already has the key: position kept. *)
Fixpoint setitem (d : dict) (k : string) (v : PyVal) : dict :=
  match d with
  | [] => [(k, v)]
  | (k', v') :: d' =>
      if String.eqb k' k then (k', v) :: d' else (k', v') :: setitem d' k v
  end.

Definition keys (d : dict) : list string := map fst d.

(** [x == "literal"] for a value [x]. *)
Definition eq_str (x : PyVal) (s : string) : bool :=
  match x with
  | PStr s' => String.eqb s' s
  | _ => false
  end.

(** Exception classes: BaseException has subclasses that are outside
    Exception. *)
Inductive ExnClass : Type :=
| SystemExit
| KeyboardInterrupt
| GeneratorExit
| ExceptionSub (name : string).   (* Exception and every class under it *)

Record PyExn : Type := mkExn { exn_class : ExnClass; exn_str : string }.

Definition isinstance_Exception (e : PyExn) : bool :=
  match exn_class e with
  | ExceptionSub _ => true
  | _ => false
  end.

Definition ValueError (m : string) : PyExn := mkExn (ExceptionSub "ValueError") m.
Definition TypeError (m : string) : PyExn := mkExn (ExceptionSub "TypeError") m.
(** sys.exit(0), which is how core.quit() ends. *)
Definition SystemExit0 : PyExn := mkExn SystemExit "0".

(** *** The builtin int() *)

Definition is_space (c : ascii) : bool :=
  let n := N_of_ascii c in
  (N.eqb n 32 || (N.leb 9 n && N.leb n 13))%bool.

Definition digit_of (c : ascii) : option Z :=
  let n := N_of_ascii c in
  if (N.leb 48 n && N.leb n 57)%bool then Some (Z.of_N n - 48)%Z else None.

Fixpoint lstrip (l : list ascii) : list ascii :=
  match l with
  | c :: l' => if is_space c then lstrip l' else l
  | [] => []
  end.

Definition strip (l : list ascii) : list ascii := rev (lstrip (rev (lstrip l))).

(** The digits of a literal, most significant first.  Between two digits
    one underscore may stand (Python 3.6 and later; Python 2 refuses it).
    [after_digit] tells whether the character before was a digit. *)
Fixpoint digits (acc : Z) (after_digit : bool) (l : list ascii) : option Z :=
  match l with
  | [] => if after_digit then Some acc else None
  | c :: l' =>
      if Ascii.eqb c "_"
      then (if after_digit then digits acc false l' else None)
      else match digit_of c with
           | Some d => digits (10 * acc + d)%Z true l'
           | None => None
           end
  end.

Definition unsigned_literal (l : list ascii) : option Z := digits 0%Z false l.

(** int() of text: a decimal literal with optional sign and surrounding
    white space. *)
Definition int_of_string (s : string) : option Z :=
  match strip (list_ascii_of_string s) with
  | "-"%char :: l => option_map Z.opp (unsigned_literal l)
  | "+"%char :: l => unsigned_literal l
  | l => unsigned_literal l
  end.

(** The message shows the text as repr() does, between quotes (exact for
    text without quotes, backslashes and unprintable characters); the
    wording of the TypeError varies with the version of Python. *)
Definition int (v : PyVal) : PyExn + Z :=
  match v with
  | PInt z => inr z
  | PBool b => inr (if b then 1 else 0)%Z
  | PStr s =>
      match int_of_string s with
      | Some z => inr z
      | None => inl (ValueError ("invalid literal for int() with base 10: '" ++ s ++ "'"))
      end
  | _ => inl (TypeError "int() argument must be a string or a number")
  end.

End Py.
Import Py.

(** ** numpy on one-dimensional float arrays *)

Module Np.

(** A float that numpy hands back: not-a-number, a rational, or the
    square root of a rational (kept symbolic).  The reductions below give
    the exact value over the rationals; numpy works in binary64, so what
    it prints can differ from it in the last places.  Which reduction
    raises and which gives nan does not depend on that. *)
Inductive npfloat : Type :=
| NaN
| Fin (q : Q)
| Sqrt (q : Q).

Definition sum (a : list Q) : Q := fold_right Qplus 0 a.

Definition size (a : list Q) : Q := inject_Z (Z.of_nat (List.length a)).

Definition avg (a : list Q) : Q := sum a / size a.

(** ndarray.mean(): nan (with a warning, not an exception) when empty. *)
Definition mean (a : list Q) : npfloat :=
  match a with
  | [] => NaN
  | _ => Fin (avg a)
  end.

(** Population variance (ddof = 0), the default of ndarray.std(). *)
Definition var (a : list Q) : Q :=
  avg (map (fun x => (x - avg a) * (x - avg a)) a).

Definition std (a : list Q) : npfloat :=
  match a with
  | [] => NaN
  | _ => Sqrt (var a)
  end.

Definition Qltb (x y : Q) : bool := negb (Qle_bool y x).

Definition zero_size (op : string) : PyExn :=
  ValueError ("zero-size array to reduction operation " ++ op
              ++ " which has no identity").

(** ndarray.max() / ndarray.min(): ValueError on an empty array. *)
Definition max (a : list Q) : PyExn + Q :=
  match a with
  | [] => inl (zero_size "maximum")
  | x :: a' => inr (fold_left (fun m y => if Qltb m y then y else m) a' x)
  end.

Definition min (a : list Q) : PyExn + Q :=
  match a with
  | [] => inl (zero_size "minimum")
  | x :: a' => inr (fold_left (fun m y => if Qltb y m then y else m) a' x)
  end.

(** Least b from [b] on with 64 * n <= b^3, looking at [fuel] candidates. *)
Fixpoint cube_search (n : Z) (fuel : nat) (b : Z) : Z :=
  match fuel with
  | O => b
  | S fuel' => if (64 * n <=? b * b * b)%Z then b else cube_search n fuel' (b + 1)%Z
  end.

(** int(np.ceil(4 * n ** (1.0/3))) for a length n, as the exact real
    value: the least integer b with 4 * cbrt(n) <= b. *)
Definition ceil_4_cbrt (n : nat) : Z :=
  cube_search (Z.of_nat n) (4 * n) 0%Z.

End Np.

(** ** Calls on the outside world, and the script's control flow *)

Module Script.

Open Scope list_scope.

(** The attributes of the trigger object that the script reads. *)
Record ScannerTrigger : Type := mkSt { triggerTime : Q; triggerCnt : Z }.

(** core.Clock: getTime() is the wall-clock time minus the time of the
    last reset (creation counts as one). *)
Record Clock : Type := mkClock { timeAtLastReset : Q }.

Definition Clock_getTime (c : Clock) (wall : Q) : Q := wall - timeAtLastReset c.

Definition Clock_reset (c : Clock) (wall : Q) : Clock := mkClock wall.

Inductive Stim : Type := stimScanner | stimTrigger.

Inductive Statistic : Type := MeanDelta | StdevDelta | MaxDelta | MinDelta.

(** One constructor per external call of demo.py, with the arguments the
    properties below look at and, for the calls whose answer steers the
    script, the answer.  Format strings are kept as their arguments.
    Calls on the GUI, logging and plotting libraries are taken to return;
    the trigger library, int() and numpy's reductions may raise. *)
Inductive Event : Type :=
| Gui_DlgFromDict (dictionary : dict) (title : string) (OK : bool)
| Core_quit
| Visual_Window
| Visual_TextStim (text : string)
| Core_Clock
| Logging_setDefaultClock
| Logging_console_setLevel
| ScannerTrigger_create (portType : PyVal) (portConfig : dict)
                        (timeout : Z) (esc_key : string) (raised : option PyExn)
| St_open (raised : option PyExn)
| Logging_flush
| Builtin_print (s : string)
| Stim_draw (s : Stim)
| Win_flip
| St_waitForTrigger (skip : Z) (outcome : PyExn + bool)
| TimeOutClock_reset
| Event_getKeys (keyList : list string) (pressed : bool)
| TimeOutClock_getTime (t : Q)
| StimTrigger_setText (cnt : Z) (onset delta : Q) (skip : Z)
| St_getTrigger (outcome : PyExn + bool)
| Logging_data (which : Statistic) (value : Np.npfloat)
| Plt_figure
| Plt_hist (x : list Q) (bins : Z)
| Plt_title (mean std : Np.npfloat)
| Plt_xlabel (s : string)
| Plt_ylabel (s : string)
| Plt_show
| St_close
| Win_close.

(** How a piece of the script ends: it falls through with a value, an
    exception is propagating, or the loop bound of the model ran out
    while the script was still looping. *)
Inductive Res (A : Type) : Type :=
| Ok (a : A)
| Raised (e : PyExn)
| Looping.
Arguments Ok {A} a.
Arguments Raised {A} e.
Arguments Looping {A}.

(** The calls made so far, oldest first, and the result. *)
Definition M (A : Type) : Type := (list Event * Res A)%type.

Definition calls {A} (m : M A) : list Event := fst m.
Definition result {A} (m : M A) : Res A := snd m.

Definition ret {A} (a : A) : M A := ([], Ok a).

Definition bind {A B} (m : M A) (k : A -> M B) : M B :=
  match m with
  | (t, Ok a) => let (t', r) := k a in (t ++ t', r)
  | (t, Raised e) => (t, Raised e)
  | (t, Looping) => (t, Looping)
  end.

Definition raise {A} (e : PyExn) : M A := ([], Raised e).

(** A call that returns nothing of interest and does not raise. *)
Definition call (ev : Event) : M unit := ([ev], Ok tt).

(** A call whose outcome the world decides. *)
Definition ask {A} (ev : Event) (outcome : PyExn + A) : M A :=
  match outcome with
  | inl e => ([ev], Raised e)
  | inr a => ([ev], Ok a)
  end.

(** A pure builtin that may raise. *)
Definition lift {A} (r : PyExn + A) : M A :=
  match r with
  | inl e => raise e
  | inr a => ret a
  end.

(** What an event records of an outcome. *)
Definition raised_by {A} (r : PyExn + A) : option PyExn :=
  match r with
  | inl e => Some e
  | inr _ => None
  end.

Definition flag_of {A} (r : PyExn + (bool * A)) : PyExn + bool :=
  match r with
  | inl e => inl e
  | inr (b, _) => inr b
  end.

(** try: body / except Exception as e: handler e *)
Definition try_except_Exception {A} (body : M A) (handler : PyExn -> M A) : M A :=
  match body with
  | (t, Raised e) =>
      if isinstance_Exception e
      then let (t', r) := handler e in (t ++ t', r)
      else (t, Raised e)
  | other => other
  end.

Declare Scope script_scope.
Delimit Scope script_scope with script.
Notation "x <- m ;; k" := (bind m (fun x => k))
  (at level 100, m at next level, right associativity) : script_scope.
Notation "m ;; k" := (bind m (fun _ => k))
  (at level 100, right associativity) : script_scope.
Open Scope script_scope.

(** core.quit(): ends in sys.exit(0). *)
Definition core_quit {A} : M A := call Core_quit ;; raise SystemExit0.

(** d[k] *)
Definition subscript (d : dict) (k : string) : M PyVal :=
  match getitem d k with
  | Some v => ret v
  | None => raise (mkExn (ExceptionSub "KeyError") k)
  end.

(** Everything the script learns from outside.  Polls of the loop are
    numbered from 0 by the iteration that makes them. *)
Record World : Type := mkWorld {
  (* the start dialog: dlg.OK and what the two fields hold afterwards *)
  dlg_OK : bool;
  dlg_triggering : PyVal;
  dlg_skip_scans : PyVal;
  (* the scannertrigger library *)
  lib_create : PyVal -> dict -> PyExn + ScannerTrigger;
  lib_open : ScannerTrigger -> PyExn + ScannerTrigger;
  lib_waitForTrigger : Z -> ScannerTrigger -> PyExn + (bool * ScannerTrigger);
  lib_getTrigger : nat -> ScannerTrigger -> PyExn + (bool * ScannerTrigger);
  (* event.getKeys(keyList=['escape']) of iteration i is a non-empty list *)
  escape_pressed : nat -> bool;
  (* wall-clock time at the creation of the clocks, at timeOutClock.reset(),
     and at the timeOutClock.getTime() of iteration i *)
  wall_at_creation : Q;
  wall_at_reset : Q;
  wall_at_poll : nat -> Q
}.

(** ** demo.py, section by section *)

(** *** EXPERIMENT INFO (lines 56-68) *)

Definition expName : string := "Demo ScannerTrigger".

Definition expInfo : dict :=
  [ ("triggering", PList [PStr "keyboard"; PStr "serial"; PStr "parallel";
                          PStr "cedrus"; PStr "launchscan"; PStr "dummy"]);
    ("skip scans", PInt 0) ].

(** The dialog edits the dictionary in place: each field keeps its key. *)
Definition dlg_edit (w : World) (d : dict) : dict :=
  if dlg_OK w
  then setitem (setitem d "triggering" (dlg_triggering w))
               "skip scans" (dlg_skip_scans w)
  else d.

Definition experiment_info (w : World) : M dict :=
  call (Gui_DlgFromDict expInfo expName (dlg_OK w)) ;;
  let expInfo := dlg_edit w expInfo in
  if negb (dlg_OK w) then core_quit else ret expInfo.

(** *** STIMULI (lines 75-117) *)

Definition stimuli : M unit :=
  call Visual_Window ;;
  call (Visual_TextStim "Wait for trigger...") ;;
  call (Visual_TextStim "TRIGGER").

(** *** SCANNER TRIGGER (lines 123-173) *)

Definition select_MR_settings (portType : PyVal) (dummyScans : Z) : PyExn + dict :=
  if eq_str portType "keyboard" then
    inr [ ("keyList", PStr "t"); ("maxWait", PInt 9999999) ]
  else if eq_str portType "dummy" then
    inr [ ("tr", PInt 1) ]
  else if eq_str portType "serial" then
    inr [ ("port", PStr "COM5"); ("baudrate", PInt 9600); ("sync", PStr "5") ]
  else if eq_str portType "parallel" then
    inr [ ("address", PStr "0x0378"); ("pin", PInt 10);
          ("edge", PConst "s.RISING") ]
  else if eq_str portType "cedrus" then
    inr [ ("devicenr", PInt 0); ("sync", PInt 4) ]
  else if eq_str portType "launchscan" then
    inr [ ("wait_msg", PStr "Waiting for scanner"); ("esc_key", PStr "escape");
          ("log", PBool true); ("wait_timeout", PInt 100);
          ("settings", PDict [ ("TR", PInt 1); ("volumes", PInt 100);
                               ("sync", PStr "t"); ("skip", PInt dummyScans);
                               ("sound", PBool false) ]) ]
  else
    inl (ValueError "The selected Port type does not exist!").

Record Config : Type := mkConfig {
  portType : PyVal;
  dummyScans : Z;
  MR_settings : dict
}.

Definition scanner_trigger_settings (expInfo : dict) : M Config :=
  portType <- subscript expInfo "triggering" ;;
  skip <- subscript expInfo "skip scans" ;;
  dummyScans <- lift (int skip) ;;
  MR_settings <- lift (select_MR_settings portType dummyScans) ;;
  ret (mkConfig portType dummyScans MR_settings).

(** *** OTHER INITIALIZATION (lines 180-205) *)

Definition clocks_and_logging (w : World) : M Clock :=
  call Core_Clock ;;
  call Core_Clock ;;
  call Logging_setDefaultClock ;;
  call Logging_console_setLevel ;;
  ret (mkClock (wall_at_creation w)).

(** The body shared by the two except clauses. *)
Definition in_case_of_errors {A} (e : PyExn) : M A :=
  call Logging_flush ;;
  call (Builtin_print ("ScannerTrigger Error: " ++ exn_str e)%string) ;;
  core_quit.

Definition open_scanner_trigger (w : World) (c : Config) : M ScannerTrigger :=
  try_except_Exception
    (let created := lib_create w (portType c) (MR_settings c) in
     st <- ask (ScannerTrigger_create (portType c) (MR_settings c) 99999 "escape"
                                      (raised_by created))
               created ;;
     let opened := lib_open w st in
     ask (St_open (raised_by opened)) opened)
    in_case_of_errors.

(** *** RUN EXPERIMENT (lines 213-247) *)

Definition wait_for_first_trigger (w : World) (c : Config) (st : ScannerTrigger)
  : M (bool * ScannerTrigger) :=
  call (Stim_draw stimScanner) ;;
  call Win_flip ;;
  try_except_Exception
    (call (Builtin_print "Waiting for the Trigger") ;;
     let waited := lib_waitForTrigger w (dummyScans c) st in
     r <- ask (St_waitForTrigger (dummyScans c) (flag_of waited)) waited ;;
     call Logging_flush ;;
     ret r)
    in_case_of_errors.

(** The variables that the loop reads and writes. *)
Record Vars : Type := mkVars {
  triggered : bool;
  st : ScannerTrigger;
  prevTriggerTime : Q;
  timeOutClock : Clock;
  deltaTriggerTimeArray : list Q
}.

Definition before_loop (w : World) (timeOutClock : Clock)
  (r : bool * ScannerTrigger) : M Vars :=
  let prevTriggerTime := triggerTime (snd r) in
  call TimeOutClock_reset ;;
  let timeOutClock := Clock_reset timeOutClock (wall_at_reset w) in
  ret (mkVars (fst r) (snd r) prevTriggerTime timeOutClock []).

(** The [if triggered:] block (lines 236-246). *)
Definition on_trigger (c : Config) (v : Vars) : M Vars :=
  call Logging_flush ;;
  let deltaTriggerTime := triggerTime (st v) - prevTriggerTime v in
  let array := deltaTriggerTimeArray v ++ [deltaTriggerTime] in
  call (StimTrigger_setText (triggerCnt (st v)) (triggerTime (st v))
                            deltaTriggerTime (dummyScans c)) ;;
  call (Stim_draw stimTrigger) ;;
  call Win_flip ;;
  ret (mkVars (triggered v) (st v) (triggerTime (st v)) (timeOutClock v) array).

(** One pass through the loop body (lines 235-247), iteration [i]. *)
Definition loop_body (w : World) (c : Config) (i : nat) (v : Vars) : M Vars :=
  v1 <- (if triggered v then on_trigger c v else ret v) ;;
  let polled := lib_getTrigger w i (st v1) in
  r <- ask (St_getTrigger (flag_of polled)) polled ;;
  ret (mkVars (fst r) (snd r) (prevTriggerTime v1) (timeOutClock v1)
              (deltaTriggerTimeArray v1)).

(** The loop condition of line 234, with the short circuit of [and]:
    the clock is read only when escape was not pressed. *)
Definition loop_condition (w : World) (i : nat) (v : Vars) : M bool :=
  call (Event_getKeys ["escape"] (escape_pressed w i)) ;;
  if negb (escape_pressed w i) then
    let t := Clock_getTime (timeOutClock v) (wall_at_poll w i) in
    call (TimeOutClock_getTime t) ;;
    ret (Np.Qltb t 100)
  else ret false.

(** The while loop from iteration [i] on; [fuel] bounds the number of
    condition checks the model follows. *)
Fixpoint polling_loop (w : World) (c : Config) (fuel i : nat) (v : Vars) : M Vars :=
  match fuel with
  | O => ([], Looping)
  | S fuel' =>
      go <- loop_condition w i v ;;
      if (go : bool) then
        v' <- loop_body w c i v ;;
        polling_loop w c fuel' (S i) v'
      else ret v
  end.

(** *** DATA OUTPUT (lines 253-272) *)

Definition data_output (deltaTriggerTimeArray : list Q) : M unit :=
  let delta := tl deltaTriggerTimeArray in
  call (Logging_data MeanDelta (Np.mean delta)) ;;
  call (Logging_data StdevDelta (Np.std delta)) ;;
  mx <- lift (Np.max delta) ;;
  call (Logging_data MaxDelta (Np.Fin mx)) ;;
  mn <- lift (Np.min delta) ;;
  call (Logging_data MinDelta (Np.Fin mn)) ;;
  call Logging_flush ;;
  let binWidth := Np.ceil_4_cbrt (List.length deltaTriggerTimeArray) in
  call Plt_figure ;;
  call (Plt_hist delta binWidth) ;;
  call (Plt_title (Np.mean delta) (Np.std delta)) ;;
  call (Plt_xlabel "delta time") ;;
  call (Plt_ylabel "frequency") ;;
  call Plt_show ;;
  call St_close ;;
  call Win_close ;;
  core_quit.

(** *** The whole script *)

(** Everything up to the loop (lines 56-232). *)
Definition startup (w : World) : M (Config * Vars) :=
  expInfo <- experiment_info w ;;
  stimuli ;;
  c <- scanner_trigger_settings expInfo ;;
  timeOutClock <- clocks_and_logging w ;;
  st <- open_scanner_trigger w c ;;
  r <- wait_for_first_trigger w c st ;;
  v <- before_loop w timeOutClock r ;;
  ret (c, v).

Definition demo (w : World) (fuel : nat) : M unit :=
  cv <- startup w ;;
  v <- polling_loop w (fst cv) fuel 0 (snd cv) ;;
  data_output (deltaTriggerTimeArray v).

End Script.
Import Script.

(** ** Vocabulary of the properties *)

(** The device-type strings that the dispatch of lines 126-171 tests, in
    the order of its branches. *)
Definition device_types : list string :=
  ["keyboard"; "dummy"; "serial"; "parallel"; "cedrus"; "launchscan"].

Definition port_type_error : PyExn :=
  ValueError "The selected Port type does not exist!".

(** The dispatch is an [n]-way lookup with an error default: [n] distinct
    strings get a dictionary, every other string gets the ValueError. *)
Definition lookup_with_default (n : nat) : Prop :=
  exists l : list string,
    NoDup l /\ List.length l = n /\
    forall s d,
      (In s l -> exists cfg, select_MR_settings (PStr s) d = inr cfg) /\
      (~ In s l -> select_MR_settings (PStr s) d = inl port_type_error).

(** The calls of lines 75-117 and of lines 180-185. *)
Definition stimuli_calls : list Event :=
  [Visual_Window; Visual_TextStim "Wait for trigger..."; Visual_TextStim "TRIGGER"].

Definition initialization_calls : list Event :=
  [Core_Clock; Core_Clock; Logging_setDefaultClock; Logging_console_setLevel].

(** The calls of an except clause (lines 203-205 and 227-229). *)
Definition error_exit (e : PyExn) : list Event :=
  [Logging_flush;
   Builtin_print ("ScannerTrigger Error: " ++ exn_str e)%string;
   Core_quit].


(** [e] propagated out of the script: the script ends with [e] itself,
    and no except clause has printed. *)
Definition unhandled {A} (e : PyExn) (m : M A) : Prop :=
  result m = Raised e /\
  forall s, ~ In (Builtin_print ("ScannerTrigger Error: " ++ s)%string) (calls m).

(** The exception that a call inside one of the two try blocks raised:
    create and open (lines 192-200), waitForTrigger (line 223). *)
Definition guarded_raise (ev : Event) : option PyExn :=
  match ev with
  | ScannerTrigger_create _ _ _ _ (Some e) => Some e
  | St_open (Some e) => Some e
  | St_waitForTrigger _ (inl e) => Some e
  | _ => None
  end.


(** The print of an except clause. *)
Definition is_error_print (ev : Event) : bool :=
  match ev with
  | Builtin_print s => String.prefix "ScannerTrigger Error: " s
  | _ => false
  end.

(** A call that is neither a raise inside a try block nor the print of
    an except clause. *)
Definition is_quiet (ev : Event) : bool :=
  match guarded_raise ev with
  | Some _ => false
  | None => negb (is_error_print ev)
  end.

(** The calls that the output section of lines 253-272 can make. *)
Definition is_output_call (ev : Event) : bool :=
  match ev with
  | Logging_data _ _ | Logging_flush
  | Plt_figure | Plt_hist _ _ | Plt_title _ _ | Plt_xlabel _ | Plt_ylabel _
  | Plt_show | St_close | Win_close | Core_quit => true
  | _ => false
  end.

(** What st.getTrigger() returned, poll after poll. *)
Fixpoint trigger_flags (t : list Event) : list bool :=
  match t with
  | [] => []
  | St_getTrigger (inr b) :: t' => b :: trigger_flags t'
  | _ :: t' => trigger_flags t'
  end.

Definition count_true (l : list bool) : nat :=
  List.length (filter (fun b : bool => b) l).

(** Reading of timeOutClock at the condition check of iteration [i]. *)
Definition elapsed (w : World) (v : Vars) (i : nat) : Q :=
  Clock_getTime (timeOutClock v) (wall_at_poll w i).

(** Escape was pressed, or 100 s or more are on timeOutClock. *)
Definition escape_or_timeout (w : World) (v : Vars) (i : nat) : bool :=
  escape_pressed w i || Qle_bool 100 (elapsed w v i).

(** The calls of one condition check. *)
Definition condition_calls (w : World) (v : Vars) (i : nat) : list Event :=
  if escape_pressed w i
  then [Event_getKeys ["escape"] true]
  else [Event_getKeys ["escape"] false; TimeOutClock_getTime (elapsed w v i)].

(** The calls of the [if triggered:] block of one pass, and the variables
    after it. *)
Definition block_calls (c : Config) (v : Vars) : list Event :=
  if triggered v
  then [Logging_flush;
        StimTrigger_setText (triggerCnt (st v)) (triggerTime (st v))
                            (triggerTime (st v) - prevTriggerTime v) (dummyScans c);
        Stim_draw stimTrigger;
        Win_flip]
  else [].

Definition after_block (v : Vars) : Vars :=
  if triggered v
  then mkVars (triggered v) (st v) (triggerTime (st v)) (timeOutClock v)
              (deltaTriggerTimeArray v ++ [triggerTime (st v) - prevTriggerTime v])
  else v.

(** The variables after the poll that ends a pass. *)
Definition after_poll (v : Vars) (r : bool * ScannerTrigger) : Vars :=
  mkVars (fst r) (snd r) (prevTriggerTime (after_block v)) (timeOutClock v)
         (deltaTriggerTimeArray (after_block v)).

(** The log records that the logging.flush() calls of the script itself
    sent to the console: logging.data() only queues a record.  What
    psychopy.logging writes on its own when the process ends is
    [console_at_exit] below. *)
Fixpoint flushed_from (pending : list (Statistic * Np.npfloat)) (t : list Event)
  : list (Statistic * Np.npfloat) :=
  match t with
  | [] => []
  | Logging_data s x :: t' => flushed_from (pending ++ [(s, x)]) t'
  | Logging_flush :: t' => pending ++ flushed_from [] t'
  | _ :: t' => flushed_from pending t'
  end.

Definition console_data (t : list Event) : list (Statistic * Np.npfloat) :=
  flushed_from [] t.

(** The console once the process has ended.  psychopy.logging writes the
    records that are still queued when the interpreter exits (core.quit()
    flushes before it raises SystemExit, and the logger flushes when it
    is torn down after an uncaught exception): the end of the run counts
    as one more flush. *)
Definition console_at_exit (t : list Event) : list (Statistic * Np.npfloat) :=
  flushed_from [] (t ++ [Logging_flush]).

Definition is_plot (ev : Event) : bool :=
  match ev with
  | Plt_figure | Plt_hist _ _ | Plt_title _ _ | Plt_xlabel _ | Plt_ylabel _
  | Plt_show => true
  | _ => false
  end.

Definition is_logging_data (ev : Event) : bool :=
  match ev with
  | Logging_data _ _ => true
  | _ => false
  end.

(** The calls that the loop of lines 234-247 can make, for a skip count. *)
Definition is_loop_call (skip : Z) (ev : Event) : bool :=
  match ev with
  | Event_getKeys ["escape"] _ => true
  | TimeOutClock_getTime _ => true
  | Logging_flush => true
  | StimTrigger_setText _ _ _ skip' => Z.eqb skip' skip
  | Stim_draw stimTrigger => true
  | Win_flip => true
  | St_getTrigger _ => true
  | _ => false
  end.

(** How far the start of the script gets (lines 56-232), case by case. *)
Definition guarded {A} (t : list Event) (e : PyExn) : M A :=
  if isinstance_Exception e
  then (t ++ error_exit e, Raised SystemExit0)
  else (t, Raised e).

Definition dialog_shown (w : World) : Event :=
  Gui_DlgFromDict expInfo expName (dlg_OK w).

Definition create_call (c : Config) (raised : option PyExn) : Event :=
  ScannerTrigger_create (portType c) (MR_settings c) 99999 "escape" raised.

Definition until_create (w : World) : list Event :=
  dialog_shown w :: stimuli_calls ++ initialization_calls.

Definition until_wait (w : World) (c : Config) : list Event :=
  until_create w ++
  [create_call c None; St_open None; Stim_draw stimScanner; Win_flip;
   Builtin_print "Waiting for the Trigger"].

Definition config_of (w : World) (z : Z) (cfg : dict) : Config :=
  mkConfig (dlg_triggering w) z cfg.

Inductive Startup (w : World) : M (Config * Vars) -> Prop :=
| Cancelled :
    dlg_OK w = false ->
    Startup w ([dialog_shown w; Core_quit], Raised SystemExit0)
| SkipNotInt e :
    dlg_OK w = true ->
    int (dlg_skip_scans w) = inl e ->
    Startup w (dialog_shown w :: stimuli_calls, Raised e)
| UnknownPort z e :
    dlg_OK w = true ->
    int (dlg_skip_scans w) = inr z ->
    select_MR_settings (dlg_triggering w) z = inl e ->
    Startup w (dialog_shown w :: stimuli_calls, Raised e)
| CreateRaised z cfg e :
    dlg_OK w = true ->
    int (dlg_skip_scans w) = inr z ->
    select_MR_settings (dlg_triggering w) z = inr cfg ->
    lib_create w (dlg_triggering w) cfg = inl e ->
    Startup w (guarded (until_create w ++ [create_call (config_of w z cfg) (Some e)]) e)
| OpenRaised z cfg st0 e :
    dlg_OK w = true ->
    int (dlg_skip_scans w) = inr z ->
    select_MR_settings (dlg_triggering w) z = inr cfg ->
    lib_create w (dlg_triggering w) cfg = inr st0 ->
    lib_open w st0 = inl e ->
    Startup w (guarded (until_create w ++
                        [create_call (config_of w z cfg) None; St_open (Some e)]) e)
| WaitRaised z cfg st0 st1 e :
    dlg_OK w = true ->
    int (dlg_skip_scans w) = inr z ->
    select_MR_settings (dlg_triggering w) z = inr cfg ->
    lib_create w (dlg_triggering w) cfg = inr st0 ->
    lib_open w st0 = inr st1 ->
    lib_waitForTrigger w z st1 = inl e ->
    Startup w (guarded (until_wait w (config_of w z cfg) ++
                        [St_waitForTrigger z (inl e)]) e)
| Started z cfg st0 st1 b st2 :
    dlg_OK w = true ->
    int (dlg_skip_scans w) = inr z ->
    select_MR_settings (dlg_triggering w) z = inr cfg ->
    lib_create w (dlg_triggering w) cfg = inr st0 ->
    lib_open w st0 = inr st1 ->
    lib_waitForTrigger w z st1 = inr (b, st2) ->
    Startup w (until_wait w (config_of w z cfg) ++
               [St_waitForTrigger z (inr b); Logging_flush; TimeOutClock_reset],
               Ok (config_of w z cfg,
                   mkVars b st2 (triggerTime st2) (mkClock (wall_at_reset w)) [])).

(** ** Scripted worlds *)

Module Worlds.

(** A trigger source with a repetition time of 2 s: each poll that sees a
    trigger moves the time stamp on by 2 s and counts it. *)
Definition poll_with (trig : nat -> bool) (i : nat) (s : ScannerTrigger)
  : PyExn + (bool * ScannerTrigger) :=
  if trig i
  then inr (true, mkSt (triggerTime s + 2) (triggerCnt s + 1))
  else inr (false, s).

(** The first trigger is accepted 5 s after the library was opened, after
    [skip] skipped ones. *)
Definition wait_with (outcome : PyExn + bool) (skip : Z) (s : ScannerTrigger)
  : PyExn + (bool * ScannerTrigger) :=
  match outcome with
  | inl e => inl e
  | inr b => inr (b, mkSt 5 skip)
  end.

(** Condition check [i] happens [i] seconds after the reset of the clock. *)
Definition scripted (ok : bool) (device skip : PyVal) (wait : PyExn + bool)
  (trig esc : nat -> bool) : World :=
  mkWorld ok device skip
          (fun _ _ => inr (mkSt 0 0)) (fun s => inr s)
          (wait_with wait) (poll_with trig)
          esc 10 20 (fun i => 20 + inject_Z (Z.of_nat i)).

Definition never (_ : nat) : bool := false.
Definition always (_ : nat) : bool := true.
Definition from (n i : nat) : bool := Nat.leb n i.

(** Keyboard triggering, a trigger at every poll, escape at the fourth check. *)
Definition steady : World :=
  scripted true (PStr "keyboard") (PInt 0) (inr true) always (from 3).

(** The first trigger is accepted, no further one comes, escape at the
    second check. *)
Definition one_trigger : World :=
  scripted true (PStr "keyboard") (PInt 0) (inr true) never (from 1).

(** Escape is down at the very first check. *)
Definition escape_at_once : World :=
  scripted true (PStr "keyboard") (PInt 0) (inr true) always (from 0).

(** Nobody presses escape; the clock runs out (one check per second). *)
Definition nobody_there : World :=
  scripted true (PStr "dummy") (PInt 2) (inr true) always never.

Definition cancelled : World :=
  scripted false (PStr "keyboard") (PInt 0) (inr true) always (from 3).

Definition unknown_device : World :=
  scripted true (PStr "mouse") (PInt 0) (inr true) always (from 3).

Definition timeout_error : PyExn :=
  mkExn (ExceptionSub "RuntimeError") "no trigger received".

Definition wait_times_out : World :=
  scripted true (PStr "serial") (PStr "3") (inl timeout_error) always (from 3).

Definition ctrl_c : PyExn := mkExn KeyboardInterrupt "".

(** Ctrl-C while the script waits for the first trigger. *)
Definition interrupted : World :=
  scripted true (PStr "keyboard") (PInt 0) (inl ctrl_c) always (from 3).

End Worlds.

(** ** Vocabulary of the further properties *)




(** Where the script stands with the trigger library. *)
Inductive LibState : Type :=
| NotCreated
| Created
| Opened
| Triggering   (* waitForTrigger has returned *)
| Closed
| Failed.      (* a call on the library raised *)

(** The order in which the library is meant to be called: create, open,
    waitForTrigger, any number of getTrigger, close; nothing after a
    call that raised.  A call out of place has no successor state. *)
Definition lib_step (s : LibState) (ev : Event) : option LibState :=
  match ev with
  | ScannerTrigger_create _ _ _ _ raised =>
      match s, raised with
      | NotCreated, None => Some Created
      | NotCreated, Some _ => Some Failed
      | _, _ => None
      end
  | St_open raised =>
      match s, raised with
      | Created, None => Some Opened
      | Created, Some _ => Some Failed
      | _, _ => None
      end
  | St_waitForTrigger _ outcome =>
      match s, outcome with
      | Opened, inr _ => Some Triggering
      | Opened, inl _ => Some Failed
      | _, _ => None
      end
  | St_getTrigger outcome =>
      match s, outcome with
      | Triggering, inr _ => Some Triggering
      | Triggering, inl _ => Some Failed
      | _, _ => None
      end
  | St_close =>
      match s with
      | Triggering => Some Closed
      | _ => None
      end
  | _ => Some s
  end.

Fixpoint lib_run (s : LibState) (t : list Event) : option LibState :=
  match t with
  | [] => Some s
  | ev :: t' =>
      match lib_step s ev with
      | Some s' => lib_run s' t'
      | None => None
      end
  end.

(** Every draw of a stimulus is followed at once by win.flip(), and
    win.flip() is called nowhere else. *)
Fixpoint draw_then_flip (t : list Event) : bool :=
  match t with
  | [] => true
  | Stim_draw _ :: t' =>
      match t' with
      | Win_flip :: t'' => draw_then_flip t''
      | _ => false
      end
  | Win_flip :: _ => false
  | _ :: t' => draw_then_flip t'
  end.

(** The calls that only the output section makes. *)
Definition is_report (ev : Event) : bool :=
  match ev with
  | Logging_data _ _
  | Plt_figure | Plt_hist _ _ | Plt_title _ _ | Plt_xlabel _ | Plt_ylabel _
  | Plt_show | St_close | Win_close => true
  | _ => false
  end.

Module MoreWorlds.

(** The dialog's skip field holds text that is no number. *)
Definition skip_is_text : World :=
  Worlds.scripted true (PStr "keyboard") (PStr "two") (inr true)
                  Worlds.always (Worlds.from 3).

(** The dialog hands the list of choices back untouched. *)
Definition device_is_list : World :=
  Worlds.scripted true
    (PList [PStr "keyboard"; PStr "serial"; PStr "parallel"; PStr "cedrus";
            PStr "launchscan"; PStr "dummy"])
    (PInt 0) (inr true) Worlds.always (Worlds.from 3).

Definition port_lost : PyExn :=
  mkExn (ExceptionSub "SerialException") "device disconnected".

(** Two triggers come in, then the third poll raises. *)
Definition poll_fails : World :=
  mkWorld true (PStr "serial") (PInt 0)
          (fun _ _ => inr (mkSt 0 0)) (fun s => inr s)
          (Worlds.wait_with (inr true))
          (fun i s => if Nat.leb 2 i then inl port_lost
                      else Worlds.poll_with Worlds.always i s)
          Worlds.never 10 20 (fun i => 20 + inject_Z (Z.of_nat i)).

(** The vendor helper, three scans to skip, escape at the fourth check. *)
Definition launchscan_skip3 : World :=
  Worlds.scripted true (PStr "launchscan") (PStr " 3 ") (inr true)
                  Worlds.always (Worlds.from 3).

End MoreWorlds.

(** ** Decimal text *)

(** The decimal text of an integer, the way str() prints it: what a user
    types into the "skip scans" field to mean that integer. *)
Definition decimal_text (z : Z) : string :=
  DecimalString.NilZero.string_of_int (Z.to_int z).

Fixpoint uint_chars (d : Decimal.uint) : list ascii :=
  match d with
  | Decimal.Nil => []
  | Decimal.D0 d => "0"%char :: uint_chars d
  | Decimal.D1 d => "1"%char :: uint_chars d
  | Decimal.D2 d => "2"%char :: uint_chars d
  | Decimal.D3 d => "3"%char :: uint_chars d
  | Decimal.D4 d => "4"%char :: uint_chars d
  | Decimal.D5 d => "5"%char :: uint_chars d
  | Decimal.D6 d => "6"%char :: uint_chars d
  | Decimal.D7 d => "7"%char :: uint_chars d
  | Decimal.D8 d => "8"%char :: uint_chars d
  | Decimal.D9 d => "9"%char :: uint_chars d
  end.

Fixpoint uint_value (acc : Z) (d : Decimal.uint) : Z :=
  match d with
  | Decimal.Nil => acc
  | Decimal.D0 d => uint_value (10 * acc + 0) d
  | Decimal.D1 d => uint_value (10 * acc + 1) d
  | Decimal.D2 d => uint_value (10 * acc + 2) d
  | Decimal.D3 d => uint_value (10 * acc + 3) d
  | Decimal.D4 d => uint_value (10 * acc + 4) d
  | Decimal.D5 d => uint_value (10 * acc + 5) d
  | Decimal.D6 d => uint_value (10 * acc + 6) d
  | Decimal.D7 d => uint_value (10 * acc + 7) d
  | Decimal.D8 d => uint_value (10 * acc + 8) d
  | Decimal.D9 d => uint_value (10 * acc + 9) d
  end.

(** ** What stands next to a call *)

Definition is_first_wait (ev : Event) : bool :=
  match ev with
  | St_waitForTrigger _ _ => true
  | _ => false
  end.

Definition is_trigger_text (ev : Event) : bool :=
  match ev with
  | StimTrigger_setText _ _ _ _ => true
  | _ => false
  end.

(** Wherever a call picked out by [P] stands in [t], the calls [pre] were
    made just before it. *)
Definition preceded_by (P : Event -> bool) (pre t : list Event) : Prop :=
  forall t1 ev t2, t = t1 ++ ev :: t2 -> P ev = true -> exists t1', t1 = t1' ++ pre.

(** Wherever a call picked out by [P] stands in [t], the calls [post] are
    made right after it. *)
Definition followed_by (P : Event -> bool) (post t : list Event) : Prop :=
  forall t1 ev t2, t = t1 ++ ev :: t2 -> P ev = true -> exists t2', t2 = post ++ t2'.

Definition wait_text_shown : list Event :=
  [Stim_draw stimScanner; Win_flip; Builtin_print "Waiting for the Trigger"].

Definition trigger_text_shown : list Event := [Stim_draw stimTrigger; Win_flip].

(** ** The monad of calls *)

Lemma bind_Ok {A B} (t : list Event) (a : A) (k : A -> M B) :
  bind (t, Ok a) k = (t ++ calls (k a), result (k a)).
Proof. unfold bind, calls, result. destruct (k a); reflexivity. Qed.

Lemma bind_Raised {A B} (t : list Event) (e : PyExn) (k : A -> M B) :
  bind (t, Raised e) k = (t, Raised e).
Proof. reflexivity. Qed.

Lemma bind_Looping {A B} (t : list Event) (k : A -> M B) :
  bind (t, @Looping A) k = (t, Looping).
Proof. reflexivity. Qed.

Lemma M_eta {A} (m : M A) : m = (calls m, result m).
Proof. destruct m; reflexivity. Qed.

(** ** The start of the script *)

Lemma startup_spec (w : World) : Startup w (startup w).
Proof.
  unfold startup, experiment_info, dlg_edit.
  change (Gui_DlgFromDict expInfo expName (dlg_OK w)) with (dialog_shown w).
  destruct (dlg_OK w) eqn:HOK; cbn [negb].
  2:{ apply Cancelled; assumption. }
  unfold scanner_trigger_settings. cbn -[dialog_shown].
  destruct (int (dlg_skip_scans w)) as [e|z] eqn:Hint; cbn -[dialog_shown].
  { apply SkipNotInt; assumption. }
  destruct (select_MR_settings (dlg_triggering w) z) as [e|cfg] eqn:Hsel;
    cbn -[dialog_shown].
  { eapply UnknownPort; eassumption. }
  unfold open_scanner_trigger. cbn -[dialog_shown].
  destruct (lib_create w (dlg_triggering w) cfg) as [e|st0] eqn:Hcr;
    cbn -[dialog_shown].
  { pose proof (CreateRaised w z cfg e HOK Hint Hsel Hcr) as H.
    unfold guarded in H. destruct (isinstance_Exception e); exact H. }
  destruct (lib_open w st0) as [e|st1] eqn:Hop; cbn -[dialog_shown].
  { pose proof (OpenRaised w z cfg st0 e HOK Hint Hsel Hcr Hop) as H.
    unfold guarded in H. destruct (isinstance_Exception e); exact H. }
  destruct (lib_waitForTrigger w z st1) as [e|[b st2]] eqn:Hwt; cbn -[dialog_shown].
  { pose proof (WaitRaised w z cfg st0 st1 e HOK Hint Hsel Hcr Hop Hwt) as H.
    unfold guarded in H. destruct (isinstance_Exception e); exact H. }
  exact (Started w z cfg st0 st1 b st2 HOK Hint Hsel Hcr Hop Hwt).
Qed.

(** ** One pass of the loop *)

Lemma loop_condition_spec (w : World) (i : nat) (v : Vars) :
  loop_condition w i v = (condition_calls w v i, Ok (negb (escape_or_timeout w v i))).
Proof.
  unfold loop_condition, condition_calls, escape_or_timeout, elapsed, Np.Qltb.
  destruct (escape_pressed w i); reflexivity.
Qed.

Lemma on_trigger_spec (c : Config) (v : Vars) :
  (if triggered v then on_trigger c v else ret v) = (block_calls c v, Ok (after_block v)).
Proof.
  unfold block_calls, after_block, on_trigger.
  destruct (triggered v); reflexivity.
Qed.

Lemma after_block_st (v : Vars) : st (after_block v) = st v.
Proof. unfold after_block. destruct (triggered v); reflexivity. Qed.

Lemma after_block_clock (v : Vars) : timeOutClock (after_block v) = timeOutClock v.
Proof. unfold after_block. destruct (triggered v); reflexivity. Qed.

Lemma loop_body_spec (w : World) (c : Config) (i : nat) (v : Vars) :
  loop_body w c i v =
  match lib_getTrigger w i (st v) with
  | inl e => (block_calls c v ++ [St_getTrigger (inl e)], Raised e)
  | inr r => (block_calls c v ++ [St_getTrigger (inr (fst r))], Ok (after_poll v r))
  end.
Proof.
  unfold loop_body. rewrite on_trigger_spec, bind_Ok.
  rewrite after_block_st, after_block_clock.
  destruct (lib_getTrigger w i (st v)) as [e|[b s']]; reflexivity.
Qed.

Lemma polling_loop_exit (w : World) (c : Config) (fuel i : nat) (v : Vars) :
  escape_or_timeout w v i = true ->
  polling_loop w c (S fuel) i v = (condition_calls w v i, Ok v).
Proof.
  intros H. cbn [polling_loop]. rewrite loop_condition_spec, H, bind_Ok.
  cbn. rewrite app_nil_r. reflexivity.
Qed.

Lemma polling_loop_pass (w : World) (c : Config) (fuel i : nat) (v : Vars) :
  escape_or_timeout w v i = false ->
  polling_loop w c (S fuel) i v =
  match lib_getTrigger w i (st v) with
  | inl e =>
      (condition_calls w v i ++ block_calls c v ++ [St_getTrigger (inl e)], Raised e)
  | inr r =>
      let next := polling_loop w c fuel (S i) (after_poll v r) in
      (condition_calls w v i ++ block_calls c v ++
       St_getTrigger (inr (fst r)) :: calls next,
       result next)
  end.
Proof.
  intros H. cbn [polling_loop]. rewrite loop_condition_spec, H, bind_Ok.
  cbn [negb]. rewrite loop_body_spec.
  destruct (lib_getTrigger w i (st v)) as [e|r].
  - rewrite bind_Raised. reflexivity.
  - rewrite bind_Ok. cbn [calls result fst snd]. rewrite <- app_assoc. reflexivity.
Qed.

(** ** Induction along the loop *)

(** A property of loop runs holds of every run when it holds of a run
    that is cut off, of an exit, of a pass whose poll raises, and is
    carried from the rest of the loop over one more pass. *)
Lemma polling_loop_rule (w : World) (c : Config)
  (P : nat -> Vars -> M Vars -> Prop) :
  (forall i v, P i v ([], Looping)) ->
  (forall i v,
      escape_or_timeout w v i = true ->
      P i v (condition_calls w v i, Ok v)) ->
  (forall i v e,
      escape_or_timeout w v i = false ->
      lib_getTrigger w i (st v) = inl e ->
      P i v (condition_calls w v i ++ block_calls c v ++ [St_getTrigger (inl e)],
             Raised e)) ->
  (forall i v r m,
      escape_or_timeout w v i = false ->
      lib_getTrigger w i (st v) = inr r ->
      P (S i) (after_poll v r) m ->
      P i v (condition_calls w v i ++ block_calls c v ++
             St_getTrigger (inr (fst r)) :: calls m,
             result m)) ->
  forall fuel i v, P i v (polling_loop w c fuel i v).
Proof.
  intros Hcut Hexit Hraise Hpass fuel.
  induction fuel as [|fuel IH]; intros i v.
  - apply Hcut.
  - destruct (escape_or_timeout w v i) eqn:Hstop.
    + rewrite polling_loop_exit by assumption. apply Hexit; assumption.
    + rewrite polling_loop_pass by assumption.
      destruct (lib_getTrigger w i (st v)) as [e|r] eqn:Hpoll.
      * apply Hraise; assumption.
      * cbv zeta. apply Hpass; auto.
Qed.

Lemma escape_or_timeout_clock (w : World) (v v' : Vars) (i : nat) :
  timeOutClock v' = timeOutClock v ->
  escape_or_timeout w v' i = escape_or_timeout w v i.
Proof. intros H. unfold escape_or_timeout, elapsed. rewrite H. reflexivity. Qed.

Lemma after_poll_stop (w : World) (v : Vars) (r : bool * ScannerTrigger) (i : nat) :
  escape_or_timeout w (after_poll v r) i = escape_or_timeout w v i.
Proof. apply escape_or_timeout_clock. reflexivity. Qed.

Lemma condition_calls_loop (w : World) (v : Vars) (i : nat) (skip : Z) :
  Forall (fun ev => is_loop_call skip ev = true) (condition_calls w v i).
Proof.
  unfold condition_calls. destruct (escape_pressed w i); repeat constructor.
Qed.

Lemma block_calls_loop (c : Config) (v : Vars) :
  Forall (fun ev => is_loop_call (dummyScans c) ev = true) (block_calls c v).
Proof.
  unfold block_calls. destruct (triggered v); repeat constructor.
  cbn. apply Z.eqb_refl.
Qed.

(** The loop calls nothing but its three polls and the redraw. *)
Lemma polling_loop_calls (w : World) (c : Config) (fuel i : nat) (v : Vars) :
  Forall (fun ev => is_loop_call (dummyScans c) ev = true)
         (calls (polling_loop w c fuel i v)).
Proof.
  apply (polling_loop_rule w c
           (fun _ _ m => Forall (fun ev => is_loop_call (dummyScans c) ev = true) (calls m)));
    cbn [calls fst]; intros.
  - constructor.
  - apply condition_calls_loop.
  - repeat (apply Forall_app; split);
      auto using condition_calls_loop, block_calls_loop.
  - apply Forall_app; split; [apply condition_calls_loop|].
    apply Forall_app; split; [apply block_calls_loop|].
    constructor; [reflexivity | assumption].
Qed.

Lemma trigger_flags_app (t1 t2 : list Event) :
  trigger_flags (t1 ++ t2) = trigger_flags t1 ++ trigger_flags t2.
Proof.
  induction t1 as [|ev t1 IH]; [reflexivity|].
  destruct ev; cbn; try assumption.
  destruct outcome; cbn; [assumption | f_equal; assumption].
Qed.

Lemma trigger_flags_condition (w : World) (v : Vars) (i : nat) :
  trigger_flags (condition_calls w v i) = [].
Proof. unfold condition_calls. destruct (escape_pressed w i); reflexivity. Qed.

Lemma trigger_flags_block (c : Config) (v : Vars) :
  trigger_flags (block_calls c v) = [].
Proof. unfold block_calls. destruct (triggered v); reflexivity. Qed.

Lemma trigger_flags_pass (w : World) (c : Config) (v : Vars) (i : nat)
  (b : bool) (t : list Event) :
  trigger_flags (condition_calls w v i ++ block_calls c v ++ St_getTrigger (inr b) :: t)
  = b :: trigger_flags t.
Proof.
  rewrite !trigger_flags_app, trigger_flags_condition, trigger_flags_block.
  reflexivity.
Qed.

Lemma after_block_length (v : Vars) :
  List.length (deltaTriggerTimeArray (after_block v))
  = (List.length (deltaTriggerTimeArray v) + count_true [triggered v])%nat.
Proof.
  unfold after_block, count_true. destruct (triggered v); cbn.
  - rewrite length_app. reflexivity.
  - lia.
Qed.

Lemma count_true_cons (b : bool) (l : list bool) :
  count_true (b :: l) = (count_true [b] + count_true l)%nat.
Proof. unfold count_true. destruct b; reflexivity. Qed.

(** Length of the array at a normal exit: one entry per pass that began
    with [triggered] set. *)
Lemma polling_loop_length (w : World) (c : Config) (fuel i : nat) (v v' : Vars)
  (t : list Event) :
  polling_loop w c fuel i v = (t, Ok v') ->
  List.length (deltaTriggerTimeArray v')
  = (List.length (deltaTriggerTimeArray v)
     + count_true (removelast (triggered v :: trigger_flags t)))%nat.
Proof.
  revert v' t.
  apply (polling_loop_rule w c
           (fun _ v m => forall v' t, m = (t, Ok v') ->
              List.length (deltaTriggerTimeArray v')
              = (List.length (deltaTriggerTimeArray v)
                 + count_true (removelast (triggered v :: trigger_flags t)))%nat)).
  - intros; discriminate.
  - intros i0 v0 _ v' t H. injection H as <- <-.
    rewrite trigger_flags_condition. cbn. lia.
  - intros; discriminate.
  - intros i0 v0 r m _ _ IH v' t H. injection H as <- Hres.
    rewrite trigger_flags_pass.
    specialize (IH v' (calls m)). rewrite (M_eta m), Hres in IH.
    specialize (IH eq_refl). rewrite IH.
    unfold after_poll at 1 2. cbn [deltaTriggerTimeArray triggered].
    rewrite after_block_length.
    change (removelast (triggered v0 :: fst r :: trigger_flags (calls m)))
      with (triggered v0 :: removelast (fst r :: trigger_flags (calls m))).
    cbn [calls fst].
    rewrite (count_true_cons (triggered v0) (removelast _)). lia.
Qed.

(** ** The script as three phases *)

Lemma guarded_not_Ok {A} (t t' : list Event) (e : PyExn) (a : A) :
  guarded t e <> (t', Ok a).
Proof. unfold guarded. destruct (isinstance_Exception e); discriminate. Qed.

(** The only way into the loop. *)
Lemma startup_Ok (w : World) (t0 : list Event) (c : Config) (v0 : Vars) :
  startup w = (t0, Ok (c, v0)) ->
  exists z cfg st0 st1 b st2,
    dlg_OK w = true /\
    int (dlg_skip_scans w) = inr z /\
    select_MR_settings (dlg_triggering w) z = inr cfg /\
    lib_create w (dlg_triggering w) cfg = inr st0 /\
    lib_open w st0 = inr st1 /\
    lib_waitForTrigger w z st1 = inr (b, st2) /\
    c = config_of w z cfg /\
    v0 = mkVars b st2 (triggerTime st2) (mkClock (wall_at_reset w)) [] /\
    t0 = until_wait w c ++
         [St_waitForTrigger z (inr b); Logging_flush; TimeOutClock_reset].
Proof.
  intros H. pose proof (startup_spec w) as S. rewrite H in S.
  inversion S; subst;
    try match goal with
        | E : guarded _ _ = (_, Ok _) |- _ => destruct (guarded_not_Ok _ _ _ _ E)
        end.
  exists z, cfg, st0, st1, b, st2. repeat split; assumption.
Qed.

Lemma startup_not_Looping (w : World) : result (startup w) <> Looping.
Proof.
  destruct (startup_spec w); cbn; try discriminate;
    unfold guarded; destruct (isinstance_Exception e); discriminate.
Qed.

Lemma demo_not_started (w : World) (fuel : nat) (t0 : list Event) (e : PyExn) :
  startup w = (t0, Raised e) -> demo w fuel = (t0, Raised e).
Proof. intros H. unfold demo. rewrite H. reflexivity. Qed.

Lemma demo_started (w : World) (fuel : nat) (t0 : list Event) (c : Config) (v0 : Vars) :
  startup w = (t0, Ok (c, v0)) ->
  demo w fuel =
  match polling_loop w c fuel 0 v0 with
  | (t, Ok v') =>
      (t0 ++ t ++ calls (data_output (deltaTriggerTimeArray v')),
       result (data_output (deltaTriggerTimeArray v')))
  | (t, Raised e) => (t0 ++ t, Raised e)
  | (t, Looping) => (t0 ++ t, Looping)
  end.
Proof.
  intros H. unfold demo. rewrite H, bind_Ok. cbn [fst snd].
  destruct (polling_loop w c fuel 0 v0) as [t [v'|e|]].
  - rewrite bind_Ok. reflexivity.
  - reflexivity.
  - reflexivity.
Qed.

(** ** C1: length of the delta array *)

(** C1, as the specification words it, does not hold: the length of
    deltaTriggerTimeArray is not the number of triggers that the polls
    after the first trigger reported.  With the first trigger accepted
    and no later one, the array holds one entry. *)
Lemma delta_array_is_not_triggers_after_first :
  ~ (forall w t0 c v0 fuel t v',
        startup w = (t0, Ok (c, v0)) ->
        polling_loop w c fuel 0 v0 = (t, Ok v') ->
        List.length (deltaTriggerTimeArray v') = count_true (trigger_flags t)).
Proof.
  intros H.
  pose (m := startup Worlds.one_trigger).
  pose (c := config_of Worlds.one_trigger 0
                [("keyList", PStr "t"); ("maxWait", PInt 9999999)]).
  pose (l := polling_loop Worlds.one_trigger c 5 0
               (mkVars true (mkSt 5 0) 5 (mkClock 20) [])).
  specialize (H Worlds.one_trigger (calls m) c _ 5%nat (calls l)
                (mkVars false (mkSt 5 0) 5 (mkClock 20) [5 - 5])
                eq_refl eq_refl).
  vm_compute in H. discriminate H.
Qed.

(** C1, amended: in every run that reaches the loop and leaves it, the
    array holds one entry per pass that began with a trigger pending:
    the flag returned by waitForTrigger (the first accepted trigger, the
    skipped ones being consumed inside that call) and the flags returned
    by the getTrigger polls, the last poll excepted, since no pass
    follows it.  So it is the slice after the first entry that has one
    entry per later trigger. *)
Theorem delta_array_length (w : World) (t0 : list Event) (c : Config) (v0 : Vars)
  (fuel : nat) (t : list Event) (v' : Vars) :
  startup w = (t0, Ok (c, v0)) ->
  polling_loop w c fuel 0 v0 = (t, Ok v') ->
  In (St_waitForTrigger (dummyScans c) (inr (triggered v0))) t0 /\
  deltaTriggerTimeArray v0 = [] /\
  List.length (deltaTriggerTimeArray v')
  = count_true (removelast (triggered v0 :: trigger_flags t)) /\
  (triggered v0 = true -> trigger_flags t <> [] ->
   List.length (deltaTriggerTimeArray v')
   = S (count_true (removelast (trigger_flags t))) /\
   List.length (tl (deltaTriggerTimeArray v'))
   = count_true (removelast (trigger_flags t))).
Proof.
  intros Hs Hl.
  pose proof (polling_loop_length _ _ _ _ _ _ _ Hl) as Hlen.
  destruct (startup_Ok _ _ _ _ Hs)
    as (z & cfg & st0 & st1 & b & st2 & _ & _ & _ & _ & _ & _ & -> & -> & ->).
  cbn [deltaTriggerTimeArray triggered List.length Nat.add] in Hlen |- *.
  split; [|split; [|split]].
  - apply in_or_app. right. left. reflexivity.
  - reflexivity.
  - exact Hlen.
  - intros -> Hne.
    destruct (trigger_flags t) as [|f fs]; [congruence|].
    change (removelast (true :: f :: fs)) with (true :: removelast (f :: fs)) in Hlen.
    rewrite count_true_cons in Hlen. cbn [count_true filter List.length Nat.add] in Hlen.
    split; [exact Hlen|].
    destruct (deltaTriggerTimeArray v') as [|d l]; [discriminate Hlen|].
    cbn [tl List.length] in Hlen |- *. congruence.
Qed.

Lemma delta_array_length_steady :
  exists t0 c v0 t v',
    startup Worlds.steady = (t0, Ok (c, v0)) /\
    polling_loop Worlds.steady c 10 0 v0 = (t, Ok v') /\
    List.length (deltaTriggerTimeArray v') = 3%nat /\
    trigger_flags t = [true; true; true] /\
    List.length (deltaTriggerTimeArray v')
    = count_true (removelast (triggered v0 :: trigger_flags t)).
Proof.
  pose (m := startup Worlds.steady).
  pose (c := config_of Worlds.steady 0 [("keyList", PStr "t"); ("maxWait", PInt 9999999)]).
  pose (v0 := mkVars true (mkSt 5 0) 5 (mkClock 20) []).
  pose (l := polling_loop Worlds.steady c 10 0 v0).
  exists (calls m), c, v0, (calls l),
    (mkVars true (mkSt (5 + 2 + 2 + 2) (0 + 1 + 1 + 1)) (5 + 2 + 2) (mkClock 20)
            [5 - 5; 5 + 2 - 5; 5 + 2 + 2 - (5 + 2)]).
  assert (Hs : startup Worlds.steady = (calls m, Ok (c, v0))) by reflexivity.
  assert (Hl : polling_loop Worlds.steady c 10 0 v0
               = (calls l,
                  Ok (mkVars true (mkSt (5 + 2 + 2 + 2) (0 + 1 + 1 + 1)) (5 + 2 + 2)
                             (mkClock 20) [5 - 5; 5 + 2 - 5; 5 + 2 + 2 - (5 + 2)])))
    by reflexivity.
  split; [exact Hs|]. split; [exact Hl|].
  split; [reflexivity|]. split; [reflexivity|].
  exact (proj1 (proj2 (proj2 (delta_array_length _ _ _ _ _ _ _ Hs Hl)))).
Defined.

(** ** C4: when the loop ends *)

Lemma polling_loop_clock (w : World) (c : Config) (fuel i : nat) (v v' : Vars)
  (t : list Event) :
  polling_loop w c fuel i v = (t, Ok v') -> timeOutClock v' = timeOutClock v.
Proof.
  revert v' t.
  apply (polling_loop_rule w c
           (fun _ v m => forall v' t, m = (t, Ok v') -> timeOutClock v' = timeOutClock v)).
  - intros; discriminate.
  - intros i0 v0 _ v' t H. injection H as _ <-. reflexivity.
  - intros; discriminate.
  - intros i0 v0 r m _ _ IH v' t H. injection H as _ Hres.
    rewrite (IH v' (calls m)); [reflexivity|].
    rewrite <- Hres. apply M_eta.
Qed.

(** A normal exit happens at the first check at which escape is down or
    the clock shows 100 s or more; the polls made until then are as many
    as the passes. *)
Lemma polling_loop_exit_check (w : World) (c : Config) (fuel i : nat) (v v' : Vars)
  (t : list Event) :
  polling_loop w c fuel i v = (t, Ok v') ->
  exists n,
    (i <= n)%nat /\
    escape_or_timeout w v n = true /\
    (forall j, (i <= j < n)%nat -> escape_or_timeout w v j = false) /\
    List.length (trigger_flags t) = (n - i)%nat.
Proof.
  revert v' t.
  apply (polling_loop_rule w c
           (fun i v m => forall v' t, m = (t, Ok v') ->
              exists n,
                (i <= n)%nat /\
                escape_or_timeout w v n = true /\
                (forall j, (i <= j < n)%nat -> escape_or_timeout w v j = false) /\
                List.length (trigger_flags t) = (n - i)%nat)).
  - intros; discriminate.
  - intros i0 v0 Hstop v' t H. injection H as <- _.
    exists i0. repeat split; [lia | assumption | intros; lia |].
    rewrite trigger_flags_condition. cbn. lia.
  - intros; discriminate.
  - intros i0 v0 r m Hgo _ IH v' t H. injection H as <- Hres.
    destruct (IH v' (calls m)) as (n & Hle & Hstop & Hbefore & Hlen).
    { rewrite <- Hres. apply M_eta. }
    exists n. repeat split.
    + lia.
    + rewrite <- (after_poll_stop w v0 r). assumption.
    + intros j Hj. destruct (Nat.eq_dec j i0) as [->|Hne]; [assumption|].
      rewrite <- (after_poll_stop w v0 r). apply Hbefore. lia.
    + rewrite trigger_flags_pass. cbn [List.length]. rewrite Hlen. lia.
Qed.

(** The loop does not run past such a check. *)
Lemma polling_loop_stops (w : World) (c : Config) (n fuel i : nat) (v : Vars) :
  escape_or_timeout w v n = true ->
  (i <= n < i + fuel)%nat ->
  result (polling_loop w c fuel i v) <> Looping.
Proof.
  revert i v. induction fuel as [|fuel IH]; intros i v Hstop Hn; [lia|].
  destruct (escape_or_timeout w v i) eqn:Hi.
  - rewrite polling_loop_exit by assumption. discriminate.
  - rewrite polling_loop_pass by assumption.
    destruct (lib_getTrigger w i (st v)) as [e|r]; [discriminate|].
    cbv zeta. cbn [result snd].
    apply IH.
    + rewrite after_poll_stop. assumption.
    + destruct (Nat.eq_dec n i) as [->|Hne]; [congruence | lia].
Qed.

(** The loop lets an exception through only from a getTrigger poll. *)
Lemma polling_loop_raised (w : World) (c : Config) (fuel i : nat) (v : Vars)
  (e : PyExn) :
  result (polling_loop w c fuel i v) = Raised e ->
  exists t, calls (polling_loop w c fuel i v) = t ++ [St_getTrigger (inl e)].
Proof.
  apply (polling_loop_rule w c
           (fun _ _ m => result m = Raised e ->
                         exists t, calls m = t ++ [St_getTrigger (inl e)])).
  - intros; discriminate.
  - intros; discriminate.
  - intros i0 v0 e0 _ _ H. injection H as ->.
    exists (condition_calls w v0 i0 ++ block_calls c v0).
    cbn [calls fst]. rewrite <- app_assoc. reflexivity.
  - intros i0 v0 r m _ _ IH H. cbn [result snd] in H.
    destruct (IH H) as (t & Ht).
    exists (condition_calls w v0 i0 ++ block_calls c v0 ++ St_getTrigger (inr (fst r)) :: t).
    cbn [calls fst]. rewrite Ht, <- !app_assoc. reflexivity.
Qed.

Lemma not_timeout_lt (w : World) (v : Vars) (i : nat) :
  escape_or_timeout w v i = false ->
  escape_pressed w i = false /\ elapsed w v i < 100.
Proof.
  unfold escape_or_timeout. intros H. apply orb_false_iff in H as [He Ht].
  split; [assumption|].
  apply Qnot_le_lt. intros Hle. apply Qle_bool_iff in Hle. congruence.
Qed.

(** C4: the clock that bounds the loop is reset right after the first
    wait returns; the loop leaves at the first condition check at which
    escape is down or that clock shows 100 s or more, and not before;
    the loop itself never resets the clock; once such a check is within
    reach the loop is over (it left there, or a getTrigger poll raised
    earlier); and every pass makes the three polls: keys, clock (below
    100 s), trigger. *)
Theorem polling_loop_ends_on_escape_or_timeout
  (w : World) (t0 : list Event) (c : Config) (v0 : Vars) :
  startup w = (t0, Ok (c, v0)) ->
  (exists t b,
      t0 = t ++ [St_waitForTrigger (dummyScans c) (inr b); Logging_flush;
                 TimeOutClock_reset]) /\
  (forall i, elapsed w v0 i = wall_at_poll w i - wall_at_reset w) /\
  (forall fuel t v',
      polling_loop w c fuel 0 v0 = (t, Ok v') ->
      timeOutClock v' = timeOutClock v0 /\
      ~ In TimeOutClock_reset t /\
      exists n,
        escape_or_timeout w v0 n = true /\
        (forall j, (j < n)%nat -> escape_or_timeout w v0 j = false) /\
        List.length (trigger_flags t) = n) /\
  (forall n fuel,
      escape_or_timeout w v0 n = true -> (n < fuel)%nat ->
      (exists t v', polling_loop w c fuel 0 v0 = (t, Ok v')) \/
      (exists t e, polling_loop w c fuel 0 v0 = (t ++ [St_getTrigger (inl e)], Raised e))) /\
  (forall fuel i v,
      escape_or_timeout w v i = false ->
      elapsed w v i < 100 /\
      exists polled rest,
        calls (polling_loop w c (S fuel) i v)
        = Event_getKeys ["escape"] false :: TimeOutClock_getTime (elapsed w v i)
          :: block_calls c v ++ St_getTrigger polled :: rest).
Proof.
  intros Hs.
  destruct (startup_Ok _ _ _ _ Hs)
    as (z & cfg & st0 & st1 & b & st2 & _ & _ & _ & _ & _ & _ & -> & -> & ->).
  split; [|split; [|split; [|split]]].
  - eexists _, b. reflexivity.
  - reflexivity.
  - intros fuel t v' Hl.
    split; [apply (polling_loop_clock _ _ _ _ _ _ _ Hl)|]. split.
    { intros Hin.
      pose proof (polling_loop_calls w (config_of w z cfg) fuel 0
                    (mkVars b st2 (triggerTime st2) (mkClock (wall_at_reset w)) []))
        as Hloop.
      rewrite Hl in Hloop. rewrite Forall_forall in Hloop.
      discriminate (Hloop _ Hin). }
    destruct (polling_loop_exit_check _ _ _ _ _ _ _ Hl) as (n & _ & Hstop & Hbefore & Hlen).
    exists n. repeat split; [assumption | intros; apply Hbefore; lia | lia].
  - intros n fuel Hstop Hn.
    pose proof (polling_loop_stops w (config_of w z cfg) n fuel 0 _ Hstop) as Hend.
    pose proof (polling_loop_raised w (config_of w z cfg) fuel 0
                  (mkVars b st2 (triggerTime st2) (mkClock (wall_at_reset w)) [])) as Hr.
    destruct (polling_loop w (config_of w z cfg) fuel 0 _) as [t [v'|e|]].
    + left. eauto.
    + right. destruct (Hr e eq_refl) as (t' & Ht). cbn [calls fst] in Ht.
      subst t. eauto.
    + exfalso. apply Hend; [lia | reflexivity].
  - intros fuel i v Hgo.
    destruct (not_timeout_lt _ _ _ Hgo) as [Hesc Hlt].
    split; [assumption|].
    rewrite polling_loop_pass by assumption.
    unfold condition_calls. rewrite Hesc.
    destruct (lib_getTrigger w i (st v)) as [e|r]; cbn [calls fst app]; eauto.
Qed.

(** ** numpy's reductions *)








Lemma cube_search_spec (n : Z) (fuel : nat) (b : Z) :
  (0 <= b)%Z ->
  (forall b', 0 <= b' < b -> b' * b' * b' < 64 * n)%Z ->
  (64 * n <= (b + Z.of_nat fuel) * (b + Z.of_nat fuel) * (b + Z.of_nat fuel))%Z ->
  let r := Np.cube_search n fuel b in
  (0 <= r /\ 64 * n <= r * r * r /\ forall b', 0 <= b' < r -> b' * b' * b' < 64 * n)%Z.
Proof.
  revert b. induction fuel as [|fuel IH]; intros b Hb Hbelow Htop;
    cbv zeta; cbn [Np.cube_search].
  - replace (b + Z.of_nat 0)%Z with b in Htop by lia. auto.
  - destruct (64 * n <=? b * b * b)%Z eqn:Hle.
    + apply Z.leb_le in Hle. auto.
    + apply Z.leb_gt in Hle. apply IH.
      * lia.
      * intros b' Hb'. destruct (Z.eq_dec b' b) as [->|Hne]; [assumption|].
        apply Hbelow. lia.
      * replace (b + 1 + Z.of_nat fuel)%Z with (b + Z.of_nat (S fuel))%Z by lia.
        assumption.
Qed.

(** The bin count is the least integer b with 4 * cbrt(n) <= b, that is,
    with 64 * n <= b^3. *)
Lemma ceil_4_cbrt_spec (n : nat) :
  let b := Np.ceil_4_cbrt n in
  (0 <= b /\ 64 * Z.of_nat n <= b * b * b /\
   forall b', 0 <= b' < b -> b' * b' * b' < 64 * Z.of_nat n)%Z.
Proof.
  unfold Np.ceil_4_cbrt. apply cube_search_spec.
  - lia.
  - intros b' Hb'. lia.
  - replace (0 + Z.of_nat (4 * n))%Z with (4 * Z.of_nat n)%Z by lia. nia.
Qed.

(** ** DATA OUTPUT, by the size of the slice *)

Lemma data_output_empty_slice (array : list Q) :
  tl array = [] ->
  data_output array
  = ([Logging_data MeanDelta Np.NaN; Logging_data StdevDelta Np.NaN],
     Raised (Np.zero_size "maximum")).
Proof. unfold data_output. intros ->. reflexivity. Qed.

Lemma data_output_slice (array : list Q) (x : Q) (l : list Q) :
  tl array = x :: l ->
  exists mx mn,
    Np.max (x :: l) = inr mx /\ Np.min (x :: l) = inr mn /\
    data_output array
    = ([Logging_data MeanDelta (Np.mean (x :: l));
        Logging_data StdevDelta (Np.std (x :: l));
        Logging_data MaxDelta (Np.Fin mx);
        Logging_data MinDelta (Np.Fin mn);
        Logging_flush;
        Plt_figure;
        Plt_hist (x :: l) (Np.ceil_4_cbrt (List.length array));
        Plt_title (Np.mean (x :: l)) (Np.std (x :: l));
        Plt_xlabel "delta time";
        Plt_ylabel "frequency";
        Plt_show;
        St_close;
        Win_close;
        Core_quit],
       Raised SystemExit0).
Proof.
  unfold data_output. intros ->.
  eexists _, _. split; [reflexivity|]. split; reflexivity.
Qed.

(** ** What the phases do not call *)

Lemma loop_call_kind (skip : Z) (ev : Event) :
  is_loop_call skip ev = true ->
  is_plot ev = false /\ is_logging_data ev = false /\
  (forall s, ev <> Builtin_print s) /\
  (forall k r, ev <> St_waitForTrigger k r) /\
  (forall cnt onset delta k, ev = StimTrigger_setText cnt onset delta k -> k = skip).
Proof.
  destruct ev; cbn; try discriminate; intros H;
    (split; [reflexivity|]); (split; [reflexivity|]);
    (split; [discriminate|]); (split; [discriminate|]);
    intros cnt' onset' delta' k E; try discriminate E.
  injection E as _ _ _ <-. apply Z.eqb_eq. assumption.
Qed.

Lemma until_wait_kind (w : World) (c : Config) (b : bool) :
  let t0 := until_wait w c ++
            [St_waitForTrigger (dummyScans c) (inr b); Logging_flush; TimeOutClock_reset] in
  Forall (fun ev => is_plot ev = false) t0 /\
  Forall (fun ev => is_logging_data ev = false) t0 /\
  forall s, In (Builtin_print s) t0 -> s = "Waiting for the Trigger".
Proof.
  cbv zeta. unfold until_wait, until_create, dialog_shown, create_call. cbn [app].
  split; [repeat constructor|]. split; [repeat constructor|].
  intros s H. cbn in H.
  repeat (destruct H as [H|H]; [try discriminate H|]); try contradiction.
  injection H as <-. reflexivity.
Qed.

Lemma flushed_from_no_data (t1 t2 : list Event) :
  Forall (fun ev => is_logging_data ev = false) t1 ->
  flushed_from [] (t1 ++ t2) = flushed_from [] t2.
Proof.
  induction 1 as [|ev t1 Hev _ IH]; [reflexivity|].
  destruct ev; cbn in *; try assumption; discriminate.
Qed.

Lemma waiting_is_no_error (s : string) :
  "Waiting for the Trigger" <> ("ScannerTrigger Error: " ++ s)%string.
Proof. cbn. discriminate. Qed.

(** ** C9: fewer than two entries *)

(** C9, as the specification words it, does not hold: the summary output
    is not wholly lost.  mean() and std() of the empty slice do not
    raise, their two nan records are queued before max() raises, and
    psychopy.logging writes them to the console when the process ends.
    With one accepted trigger and no later one the console ends up with
    exactly these two records. *)
Lemma nan_records_reach_the_console :
  ~ (forall w t0 c v0 fuel t v',
        startup w = (t0, Ok (c, v0)) ->
        polling_loop w c fuel 0 v0 = (t, Ok v') ->
        (List.length (deltaTriggerTimeArray v') < 2)%nat ->
        console_at_exit (calls (demo w fuel)) = []).
Proof.
  intros H.
  pose (m := startup Worlds.one_trigger).
  pose (c := config_of Worlds.one_trigger 0
                [("keyList", PStr "t"); ("maxWait", PInt 9999999)]).
  pose (l := polling_loop Worlds.one_trigger c 5 0
               (mkVars true (mkSt 5 0) 5 (mkClock 20) [])).
  assert (Hlen : (List.length [5 - 5] < 2)%nat) by (cbn; lia).
  specialize (H Worlds.one_trigger (calls m) c _ 5%nat (calls l)
                (mkVars false (mkSt 5 0) 5 (mkClock 20) [5 - 5])
                eq_refl eq_refl Hlen).
  vm_compute in H. discriminate H.
Qed.

(** C9, amended: when the loop has left fewer than two entries in the
    array, the slice is empty; mean() and std() give nan and their two
    records are queued; then max() raises its ValueError, nothing
    catches it, and the script ends there.  The records of the maximum
    and the minimum are never made and nothing is plotted; the two nan
    records are all the summary output there is, and they reach the
    console only when the process ends, not through a flush of the
    script. *)
Theorem statistics_fail_on_short_array
  (w : World) (t0 : list Event) (c : Config) (v0 : Vars) (fuel : nat)
  (t : list Event) (v' : Vars) :
  startup w = (t0, Ok (c, v0)) ->
  polling_loop w c fuel 0 v0 = (t, Ok v') ->
  (List.length (deltaTriggerTimeArray v') < 2)%nat ->
  tl (deltaTriggerTimeArray v') = [] /\
  Np.max (tl (deltaTriggerTimeArray v')) = inl (Np.zero_size "maximum") /\
  demo w fuel
  = (t0 ++ t ++ [Logging_data MeanDelta Np.NaN; Logging_data StdevDelta Np.NaN],
     Raised (Np.zero_size "maximum")) /\
  unhandled (Np.zero_size "maximum") (demo w fuel) /\
  Forall (fun ev => is_logging_data ev = false) (t0 ++ t) /\
  console_at_exit (calls (demo w fuel))
  = [(MeanDelta, Np.NaN); (StdevDelta, Np.NaN)] /\
  Forall (fun ev => is_plot ev = false) (calls (demo w fuel)).
Proof.
  intros Hs Hl Hlen.
  assert (Htl : tl (deltaTriggerTimeArray v') = []).
  { destruct (deltaTriggerTimeArray v') as [|d [|d' l]]; cbn in *; try reflexivity; lia. }
  assert (Hdemo : demo w fuel
                  = (t0 ++ t ++ [Logging_data MeanDelta Np.NaN;
                                 Logging_data StdevDelta Np.NaN],
                     Raised (Np.zero_size "maximum"))).
  { rewrite (demo_started _ _ _ _ _ Hs), Hl, (data_output_empty_slice _ Htl).
    reflexivity. }
  pose proof (polling_loop_calls w c fuel 0 v0) as Hloop.
  rewrite Hl in Hloop. cbn [calls fst] in Hloop. rewrite Forall_forall in Hloop.
  destruct (startup_Ok _ _ _ _ Hs)
    as (z & cfg & st0 & st1 & b & st2 & _ & _ & _ & _ & _ & _ & Hc & _ & Ht0).
  destruct (until_wait_kind w c b) as (Hplot0 & Hdata0 & Hprint0).
  replace z with (dummyScans c) in Ht0 by (rewrite Hc; reflexivity).
  rewrite <- Ht0 in Hplot0, Hdata0, Hprint0.
  assert (Hdata : Forall (fun ev => is_logging_data ev = false) t).
  { apply Forall_forall. intros ev Hin. apply (loop_call_kind _ _ (Hloop _ Hin)). }
  split; [assumption|]. split; [rewrite Htl; reflexivity|].
  split; [assumption|]. rewrite Hdemo. cbn [calls fst result snd].
  split; [|split; [|split]].
  - split; [reflexivity|]. intros s Hin.
    apply in_app_or in Hin as [Hin|Hin].
    { apply (waiting_is_no_error s). symmetry. apply Hprint0. assumption. }
    apply in_app_or in Hin as [Hin|Hin].
    { destruct (loop_call_kind _ _ (Hloop _ Hin)) as (_ & _ & Hp & _).
      apply (Hp _ eq_refl). }
    cbn in Hin. destruct Hin as [Hin|[Hin|[]]]; discriminate Hin.
  - apply Forall_app. split; assumption.
  - unfold console_at_exit. rewrite <- !app_assoc.
    rewrite flushed_from_no_data by assumption.
    rewrite flushed_from_no_data by assumption.
    reflexivity.
  - apply Forall_app. split; [assumption|]. apply Forall_app. split.
    + apply Forall_forall. intros ev Hin. apply (loop_call_kind _ _ (Hloop _ Hin)).
    + repeat constructor.
Qed.

Lemma statistics_fail_after_one_trigger :
  exists t0 c v0 t v',
    startup Worlds.one_trigger = (t0, Ok (c, v0)) /\
    polling_loop Worlds.one_trigger c 5 0 v0 = (t, Ok v') /\
    (List.length (deltaTriggerTimeArray v') < 2)%nat /\
    result (demo Worlds.one_trigger 5) = Raised (Np.zero_size "maximum") /\
    console_at_exit (calls (demo Worlds.one_trigger 5))
    = [(MeanDelta, Np.NaN); (StdevDelta, Np.NaN)].
Proof.
  pose (c := config_of Worlds.one_trigger 0
                [("keyList", PStr "t"); ("maxWait", PInt 9999999)]).
  pose (v0 := mkVars true (mkSt 5 0) 5 (mkClock 20) []).
  pose (v' := mkVars false (mkSt 5 0) 5 (mkClock 20) [5 - 5]).
  assert (Hs : startup Worlds.one_trigger
               = (calls (startup Worlds.one_trigger), Ok (c, v0))) by reflexivity.
  assert (Hl : polling_loop Worlds.one_trigger c 5 0 v0
               = (calls (polling_loop Worlds.one_trigger c 5 0 v0), Ok v'))
    by reflexivity.
  assert (Hlen : (List.length (deltaTriggerTimeArray v') < 2)%nat) by (cbn; lia).
  exists (calls (startup Worlds.one_trigger)), c, v0,
    (calls (polling_loop Worlds.one_trigger c 5 0 v0)), v'.
  split; [exact Hs|]. split; [exact Hl|]. split; [exact Hlen|].
  destruct (statistics_fail_on_short_array _ _ _ _ _ _ _ Hs Hl Hlen)
    as (_ & _ & _ & Hun & _ & Hcon & _).
  split; [exact (proj1 Hun) | exact Hcon].
Defined.

(** ** C8: the first entry and the slice *)

Lemma polling_loop_extends (w : World) (c : Config) (fuel i : nat) (v v' : Vars)
  (t : list Event) :
  polling_loop w c fuel i v = (t, Ok v') ->
  exists l, deltaTriggerTimeArray v' = deltaTriggerTimeArray v ++ l.
Proof.
  revert v' t.
  apply (polling_loop_rule w c
           (fun _ v m => forall v' t, m = (t, Ok v') ->
              exists l, deltaTriggerTimeArray v' = deltaTriggerTimeArray v ++ l)).
  - intros; discriminate.
  - intros i0 v0 _ v' t H. injection H as _ <-. exists []. symmetry. apply app_nil_r.
  - intros; discriminate.
  - intros i0 v0 r m _ _ IH v' t H. injection H as _ Hres.
    destruct (IH v' (calls m)) as (l & Hl).
    { rewrite <- Hres. apply M_eta. }
    rewrite Hl. unfold after_poll, after_block. cbn [deltaTriggerTimeArray].
    destruct (triggered v0); cbn [deltaTriggerTimeArray].
    + rewrite <- app_assoc. eexists. reflexivity.
    + eexists. reflexivity.
Qed.

Lemma polling_loop_first_entry (w : World) (c : Config) (fuel : nat) (v v' : Vars)
  (t : list Event) :
  polling_loop w c fuel 0 v = (t, Ok v') ->
  deltaTriggerTimeArray v = [] ->
  triggered v = true ->
  escape_or_timeout w v 0 = false ->
  exists rest,
    deltaTriggerTimeArray v' = (triggerTime (st v) - prevTriggerTime v) :: rest.
Proof.
  intros Hl Harr Htrig Hgo.
  destruct fuel as [|fuel]; [discriminate|].
  rewrite polling_loop_pass in Hl by assumption.
  destruct (lib_getTrigger w 0 (st v)) as [e|r]; [discriminate|].
  cbv zeta in Hl. injection Hl as _ Hres.
  destruct (polling_loop_extends w c fuel 1 (after_poll v r) v'
              (calls (polling_loop w c fuel 1 (after_poll v r)))) as (l & Hext).
  { rewrite <- Hres. apply M_eta. }
  rewrite Hext. unfold after_poll, after_block. rewrite Htrig, Harr.
  cbn. eexists. reflexivity.
Qed.

(** C8: in a run whose first wait returned a trigger and whose loop made
    at least one pass, the array begins with an entry equal to 0; the
    four statistics and the histogram are taken from the entries after
    it, and the bin count from the length of the whole array, which is
    the least integer b with 64 * length <= b^3. *)
Theorem first_delta_zero_and_statistics_skip_it
  (w : World) (t0 : list Event) (c : Config) (v0 : Vars) (fuel : nat)
  (t : list Event) (v' : Vars) :
  startup w = (t0, Ok (c, v0)) ->
  polling_loop w c fuel 0 v0 = (t, Ok v') ->
  triggered v0 = true ->
  escape_or_timeout w v0 0 = false ->
  exists d0 rest,
    deltaTriggerTimeArray v' = d0 :: rest /\
    d0 == 0 /\
    ((rest = [] /\
      demo w fuel
      = (t0 ++ t ++ [Logging_data MeanDelta (Np.mean rest);
                     Logging_data StdevDelta (Np.std rest)],
         Raised (Np.zero_size "maximum")))
     \/
     (exists mx mn bins,
        Np.max rest = inr mx /\ Np.min rest = inr mn /\
        bins = Np.ceil_4_cbrt (List.length (d0 :: rest)) /\
        (64 * Z.of_nat (List.length (d0 :: rest)) <= bins * bins * bins)%Z /\
        (forall b', 0 <= b' < bins ->
                    b' * b' * b' < 64 * Z.of_nat (List.length (d0 :: rest)))%Z /\
        demo w fuel
        = (t0 ++ t ++ [Logging_data MeanDelta (Np.mean rest);
                       Logging_data StdevDelta (Np.std rest);
                       Logging_data MaxDelta (Np.Fin mx);
                       Logging_data MinDelta (Np.Fin mn);
                       Logging_flush;
                       Plt_figure;
                       Plt_hist rest bins;
                       Plt_title (Np.mean rest) (Np.std rest);
                       Plt_xlabel "delta time";
                       Plt_ylabel "frequency";
                       Plt_show;
                       St_close;
                       Win_close;
                       Core_quit],
           Raised SystemExit0))).
Proof.
  intros Hs Hl Htrig Hgo.
  destruct (startup_Ok _ _ _ _ Hs)
    as (z & cfg & st0 & st1 & b & st2 & _ & _ & _ & _ & _ & _ & _ & Hv0 & _).
  destruct (polling_loop_first_entry _ _ _ _ _ _ Hl) as (rest & Harr);
    try assumption.
  { rewrite Hv0. reflexivity. }
  exists (triggerTime (st v0) - prevTriggerTime v0), rest.
  split; [assumption|]. split.
  { rewrite Hv0. cbn. unfold Qminus. apply Qplus_opp_r. }
  rewrite (demo_started _ _ _ _ _ Hs), Hl, Harr.
  destruct rest as [|x l].
  - left. split; [reflexivity|].
    rewrite data_output_empty_slice by reflexivity. reflexivity.
  - right.
    destruct (data_output_slice
                ((triggerTime (st v0) - prevTriggerTime v0) :: x :: l) x l eq_refl)
      as (mx & mn & Hmx & Hmn & Hout).
    exists mx, mn, (Np.ceil_4_cbrt (List.length
                       ((triggerTime (st v0) - prevTriggerTime v0) :: x :: l))).
    split; [assumption|]. split; [assumption|]. split; [reflexivity|].
    pose proof (ceil_4_cbrt_spec (List.length
                  ((triggerTime (st v0) - prevTriggerTime v0) :: x :: l)))
      as (_ & Hup & Hlow).
    split; [exact Hup|]. split; [exact Hlow|].
    rewrite Hout. reflexivity.
Qed.

Lemma first_delta_zero_steady :
  exists t0 c v0 t v' d0 rest,
    startup Worlds.steady = (t0, Ok (c, v0)) /\
    polling_loop Worlds.steady c 10 0 v0 = (t, Ok v') /\
    triggered v0 = true /\
    escape_or_timeout Worlds.steady v0 0 = false /\
    deltaTriggerTimeArray v' = d0 :: rest /\
    d0 == 0 /\
    rest = [5 + 2 - 5; 5 + 2 + 2 - (5 + 2)].
Proof.
  pose (c := config_of Worlds.steady 0 [("keyList", PStr "t"); ("maxWait", PInt 9999999)]).
  pose (v0 := mkVars true (mkSt 5 0) 5 (mkClock 20) []).
  pose (v' := mkVars true (mkSt (5 + 2 + 2 + 2) (0 + 1 + 1 + 1)) (5 + 2 + 2)
                     (mkClock 20) [5 - 5; 5 + 2 - 5; 5 + 2 + 2 - (5 + 2)]).
  assert (Hs : startup Worlds.steady = (calls (startup Worlds.steady), Ok (c, v0)))
    by reflexivity.
  assert (Hl : polling_loop Worlds.steady c 10 0 v0
               = (calls (polling_loop Worlds.steady c 10 0 v0), Ok v'))
    by reflexivity.
  destruct (first_delta_zero_and_statistics_skip_it
              _ _ _ _ _ _ _ Hs Hl eq_refl eq_refl)
    as (d0 & rest & Harr & Hzero & _).
  exists (calls (startup Worlds.steady)), c, v0,
    (calls (polling_loop Worlds.steady c 10 0 v0)), v', d0, rest.
  split; [exact Hs|]. split; [exact Hl|].
  split; [reflexivity|]. split; [reflexivity|].
  split; [exact Harr|]. split; [exact Hzero|].
  cbn in Harr. injection Harr as _ <-. reflexivity.
Defined.

(** ** C5: the output section on an array without data *)

(** C5 at the input that breaks it: escape is down at the first check, so
    the array is empty when the loop ends; the script queues two nan
    records and ends with the ValueError of max(), without the maximum
    and minimum records, without a histogram. *)
Lemma no_statistics_when_escape_at_once :
  demo Worlds.escape_at_once 3
  = (calls (startup Worlds.escape_at_once) ++
     [Event_getKeys ["escape"] true;
      Logging_data MeanDelta Np.NaN;
      Logging_data StdevDelta Np.NaN],
     Raised (Np.zero_size "maximum"))
  /\ Forall (fun ev => is_plot ev = false) (calls (demo Worlds.escape_at_once 3)).
Proof. split; [reflexivity | repeat constructor]. Qed.

(** ** Where a call of a run comes from *)

Lemma data_output_calls (array : list Q) :
  Forall (fun ev => is_output_call ev = true) (calls (data_output array)).
Proof.
  destruct (tl array) as [|x l] eqn:Htl.
  - rewrite (data_output_empty_slice _ Htl). repeat constructor.
  - destruct (data_output_slice _ _ _ Htl) as (mx & mn & _ & _ & ->).
    repeat constructor.
Qed.

(** A call of a run is a call of the start, or the run got into the loop
    and the call is one of the loop or of the output section. *)
Lemma demo_call_origin (w : World) (fuel : nat) (ev : Event) :
  In ev (calls (demo w fuel)) ->
  In ev (calls (startup w)) \/
  exists t0 c v0,
    startup w = (t0, Ok (c, v0)) /\
    (is_loop_call (dummyScans c) ev = true \/ is_output_call ev = true).
Proof.
  intros Hin.
  destruct (startup w) as [t0 [[c v0]|e|]] eqn:Hs.
  - rewrite (demo_started _ _ _ _ _ Hs) in Hin.
    pose proof (polling_loop_calls w c fuel 0 v0) as Hloop.
    rewrite Forall_forall in Hloop.
    destruct (polling_loop w c fuel 0 v0) as [t [v'|e|]];
      cbn [calls fst] in Hin, Hloop;
      apply in_app_or in Hin as [Hin|Hin]; try (left; exact Hin);
      right; exists t0, c, v0; (split; [reflexivity|]);
      try (left; apply Hloop; exact Hin).
    apply in_app_or in Hin as [Hin|Hin]; [left; apply Hloop; exact Hin|].
    right. pose proof (data_output_calls (deltaTriggerTimeArray v')) as Hout.
    rewrite Forall_forall in Hout. apply Hout. exact Hin.
  - rewrite (demo_not_started _ _ _ _ Hs) in Hin. left. exact Hin.
  - exfalso. apply (startup_not_Looping w). rewrite Hs. reflexivity.
Qed.



Lemma error_print_not_quiet (s : string) :
  is_quiet (Builtin_print ("ScannerTrigger Error: " ++ s)%string) = false.
Proof. cbn. destruct s; reflexivity. Qed.

Lemma quiet_no_error_print (t : list Event) :
  Forall (fun ev => is_quiet ev = true) t ->
  forall s, ~ In (Builtin_print ("ScannerTrigger Error: " ++ s)%string) t.
Proof.
  intros HF s Hin. rewrite Forall_forall in HF. specialize (HF _ Hin).
  rewrite error_print_not_quiet in HF. discriminate.
Qed.






Lemma startup_no_poll (w : World) (r : PyExn + bool) :
  ~ In (St_getTrigger r) (calls (startup w)).
Proof.
  destruct (startup_spec w); unfold guarded;
    try destruct (isinstance_Exception e);
    cbn; intuition discriminate.
Qed.

(** A poll that raised is the last call of the loop. *)
Lemma polling_loop_poll_raised (w : World) (c : Config) (fuel i : nat) (v : Vars)
  (e : PyExn) :
  In (St_getTrigger (inl e)) (calls (polling_loop w c fuel i v)) ->
  result (polling_loop w c fuel i v) = Raised e.
Proof.
  assert (Hcond : forall v i, ~ In (St_getTrigger (inl e)) (condition_calls w v i)).
  { intros v1 i1. unfold condition_calls.
    destruct (escape_pressed w i1); cbn; intuition discriminate. }
  assert (Hblock : forall v, ~ In (St_getTrigger (inl e)) (block_calls c v)).
  { intros v1. unfold block_calls.
    destruct (triggered v1); cbn; intuition discriminate. }
  apply (polling_loop_rule w c
           (fun _ _ m => In (St_getTrigger (inl e)) (calls m) -> result m = Raised e));
    cbn [calls fst result snd].
  - intros _ _ [].
  - intros i0 v0 _ H. destruct (Hcond _ _ H).
  - intros i0 v0 e0 _ _ H.
    apply in_app_or in H as [H|H]; [destruct (Hcond _ _ H)|].
    apply in_app_or in H as [H|H]; [destruct (Hblock _ H)|].
    destruct H as [H|[]]. injection H as ->. reflexivity.
  - intros i0 v0 r m _ _ IH H.
    apply in_app_or in H as [H|H]; [destruct (Hcond _ _ H)|].
    apply in_app_or in H as [H|H]; [destruct (Hblock _ H)|].
    destruct H as [H|H]; [discriminate H | auto].
Qed.



(** ** C2: the two try blocks *)



(** ** C6 and C3: the dispatch on the device type *)

Lemma device_types_NoDup : NoDup device_types.
Proof.
  unfold device_types.
  repeat (constructor; [cbn; intuition discriminate|]). constructor.
Qed.

Lemma select_recognized (s : string) (d : Z) :
  In s device_types -> exists cfg, select_MR_settings (PStr s) d = inr cfg.
Proof.
  intros H. cbn in H.
  destruct H as [<-|[<-|[<-|[<-|[<-|[<-|[]]]]]]]; eexists; reflexivity.
Qed.

Lemma select_unrecognized (s : string) (d : Z) :
  ~ In s device_types -> select_MR_settings (PStr s) d = inl port_type_error.
Proof.
  intros H. unfold select_MR_settings, eq_str.
  repeat match goal with
         | |- context [String.eqb s ?k] =>
             destruct (String.eqb_spec s k) as [->|_];
             [exfalso; apply H; cbn; tauto|]
         end.
  reflexivity.
Qed.

(** C6 as worded does not hold: no five strings make up the table. *)
Lemma dispatch_is_not_five_way : ~ lookup_with_default 5.
Proof.
  intros (l & Hnd & Hlen & Hl).
  assert (Hincl : incl device_types l).
  { intros s Hs. destruct (in_dec string_dec s l) as [Hin|Hout]; [assumption|].
    destruct (select_recognized s 0 Hs) as (cfg & Hcfg).
    rewrite (proj2 (Hl s 0%Z) Hout) in Hcfg. discriminate. }
  pose proof (NoDup_incl_length device_types_NoDup Hincl) as Hle.
  rewrite Hlen in Hle. cbn in Hle. lia.
Qed.

(** C6, amended: the dispatch is a six-way lookup (keyboard, dummy,
    serial, parallel, cedrus, launchscan) with the ValueError as default. *)
Theorem dispatch_is_six_way :
  lookup_with_default 6 /\
  NoDup device_types /\
  List.length device_types = 6%nat /\
  forall s d,
    (In s device_types -> exists cfg, select_MR_settings (PStr s) d = inr cfg) /\
    (~ In s device_types -> select_MR_settings (PStr s) d = inl port_type_error).
Proof.
  assert (H : forall s d,
             (In s device_types -> exists cfg, select_MR_settings (PStr s) d = inr cfg) /\
             (~ In s device_types -> select_MR_settings (PStr s) d = inl port_type_error)).
  { intros s d. split; [apply select_recognized | apply select_unrecognized]. }
  split; [|split; [|split]].
  - exists device_types. split; [apply device_types_NoDup|]. split; [reflexivity|].
    exact H.
  - apply device_types_NoDup.
  - reflexivity.
  - exact H.
Qed.

(** C3: a device-type string outside the recognized set makes the
    dispatch raise its ValueError.  In a run in which the dialog was
    accepted with such a string, the script ends while it assembles the
    configuration, right after the stimuli are built and before any call
    on the trigger library, with an exception that nothing catches: the
    ValueError of the dispatch, unless int() already refused the skip
    count one line earlier. *)
Theorem unknown_device_raises_ValueError (w : World) (fuel : nat) (s : string) (z : Z) :
  ~ In s device_types ->
  select_MR_settings (PStr s) z = inl port_type_error /\
  exn_class port_type_error = ExceptionSub "ValueError" /\
  (dlg_OK w = true ->
   dlg_triggering w = PStr s ->
   exists e,
     demo w fuel = (dialog_shown w :: stimuli_calls, Raised e) /\
     unhandled e (demo w fuel) /\
     (forall pt cfg tmo k r,
         ~ In (ScannerTrigger_create pt cfg tmo k r) (calls (demo w fuel))) /\
     (forall z', int (dlg_skip_scans w) = inr z' -> e = port_type_error) /\
     (forall e', int (dlg_skip_scans w) = inl e' -> e = e')).
Proof.
  intros Hs. split; [apply select_unrecognized; assumption|].
  split; [reflexivity|]. intros HOK Hdev.
  assert (Hd : exists e,
             demo w fuel = (dialog_shown w :: stimuli_calls, Raised e) /\
             (forall z', int (dlg_skip_scans w) = inr z' -> e = port_type_error) /\
             (forall e', int (dlg_skip_scans w) = inl e' -> e = e')).
  { pose proof (startup_spec w) as S.
    remember (startup w) as m eqn:Hm. symmetry in Hm.
    destruct S as [H|e H H0|z0 e H H0 H1| | | |];
      try congruence;
      try match goal with
          | H : select_MR_settings (dlg_triggering w) ?z' = inr _ |- _ =>
              rewrite Hdev, (select_unrecognized s z' Hs) in H; discriminate H
          end.
    - exists e. split; [apply demo_not_started; exact Hm|].
      split; intros; congruence.
    - exists e. split; [apply demo_not_started; exact Hm|].
      rewrite Hdev, (select_unrecognized s z0 Hs) in H1. injection H1 as <-.
      split; intros; congruence. }
  destruct Hd as (e & Hd & Hz & He). exists e.
  split; [assumption|]. rewrite Hd. cbn [calls fst result snd].
  split; [|split; [|split; assumption]].
  - split; [reflexivity|]. apply quiet_no_error_print. repeat constructor.
  - intros pt cfg tmo k r H. cbn in H. intuition discriminate.
Qed.

Lemma unknown_device_mouse :
  ~ In "mouse" device_types /\
  dlg_OK Worlds.unknown_device = true /\
  dlg_triggering Worlds.unknown_device = PStr "mouse" /\
  demo Worlds.unknown_device 5
  = (dialog_shown Worlds.unknown_device :: stimuli_calls, Raised port_type_error).
Proof.
  assert (H : ~ In "mouse" device_types) by (cbn; intuition discriminate).
  split; [exact H|]. split; [reflexivity|]. split; [reflexivity|].
  destruct (proj2 (proj2 (unknown_device_raises_ValueError
                            Worlds.unknown_device 5 "mouse" 0 H))
                  eq_refl eq_refl)
    as (e & Hd & _ & _ & Hz & _).
  rewrite Hd, (Hz 0%Z eq_refl). reflexivity.
Defined.

(** ** C10: the dialog is cancelled *)

(** C10: with the dialog cancelled the run consists of the dialog and
    core.quit(): no window, no stimulus, no call on the trigger library. *)
Theorem cancel_quits_at_once (w : World) (fuel : nat) :
  dlg_OK w = false ->
  demo w fuel = ([Gui_DlgFromDict expInfo expName false; Core_quit], Raised SystemExit0) /\
  ~ In Visual_Window (calls (demo w fuel)) /\
  (forall text, ~ In (Visual_TextStim text) (calls (demo w fuel))) /\
  (forall pt cfg tmo k r, ~ In (ScannerTrigger_create pt cfg tmo k r) (calls (demo w fuel))).
Proof.
  intros HOK.
  assert (Hd : demo w fuel
               = ([Gui_DlgFromDict expInfo expName false; Core_quit], Raised SystemExit0)).
  { apply demo_not_started.
    destruct (startup_spec w); try congruence.
    unfold dialog_shown. rewrite HOK. reflexivity. }
  split; [assumption|]. rewrite Hd. cbn.
  repeat split; intros; intuition discriminate.
Qed.

Lemma cancel_quits_at_once_scripted :
  dlg_OK Worlds.cancelled = false /\
  demo Worlds.cancelled 5
  = ([Gui_DlgFromDict expInfo expName false; Core_quit], Raised SystemExit0).
Proof.
  split; [reflexivity|].
  exact (proj1 (cancel_quits_at_once Worlds.cancelled 5 eq_refl)).
Defined.

(** ** C7: the dialog and the skip count *)

Lemma startup_begins_with_dialog (w : World) :
  exists rest, calls (startup w) = dialog_shown w :: rest.
Proof.
  destruct (startup_spec w); unfold guarded, until_wait, until_create;
    try destruct (isinstance_Exception e); cbn [calls fst app];
    eexists; reflexivity.
Qed.

Lemma demo_extends_startup (w : World) (fuel : nat) :
  exists tail, calls (demo w fuel) = calls (startup w) ++ tail.
Proof.
  destruct (startup w) as [t0 [[c v0]|e|]] eqn:Hs.
  - rewrite (demo_started _ _ _ _ _ Hs).
    destruct (polling_loop w c fuel 0 v0) as [t [v'|e|]]; cbn [calls fst];
      eexists; reflexivity.
  - rewrite (demo_not_started _ _ _ _ Hs). exists []. cbn. rewrite app_nil_r. reflexivity.
  - exfalso. apply (startup_not_Looping w). rewrite Hs. reflexivity.
Qed.

(** The arguments of the calls on the trigger library that the start of
    the script makes come from the dialog. *)
Lemma startup_library_arguments (w : World) :
  (forall skip r,
      In (St_waitForTrigger skip r) (calls (startup w)) ->
      int (dlg_skip_scans w) = inr skip) /\
  (forall pt cfg tmo k r,
      In (ScannerTrigger_create pt cfg tmo k r) (calls (startup w)) ->
      exists skip,
        int (dlg_skip_scans w) = inr skip /\ pt = dlg_triggering w /\
        select_MR_settings pt skip = inr cfg) /\
  (forall cnt onset delta skip,
      ~ In (StimTrigger_setText cnt onset delta skip) (calls (startup w))).
Proof.
  destruct (startup_spec w); unfold guarded, until_wait, until_create;
    try destruct (isinstance_Exception e); cbn [calls fst app];
    (split; [|split]); intros; cbn in *;
    repeat match goal with
           | H : _ \/ _ |- _ => destruct H as [H|H]
           | H : False |- _ => destruct H
           | H : dialog_shown _ = _ |- _ => discriminate H
           | |- ~ _ => intros ?
           end;
    try discriminate;
    try match goal with
        | H : St_waitForTrigger _ _ = St_waitForTrigger _ _ |- _ =>
            injection H as <- _; assumption
        | H : create_call _ _ = ScannerTrigger_create _ _ _ _ _ |- _ =>
            injection H as <- <- _ _ _; eexists; repeat split; eassumption
        end.
Qed.

(** *** int() reads decimal text *)

Lemma uint_chars_spec (d : Decimal.uint) :
  list_ascii_of_string (DecimalString.NilEmpty.string_of_uint d) = uint_chars d.
Proof. induction d; cbn; congruence. Qed.

Lemma digits_uint_chars (d : Decimal.uint) (acc : Z) :
  digits acc true (uint_chars d) = Some (uint_value acc d).
Proof.
  revert acc. induction d; intros acc; [reflexivity|..];
    cbn [uint_chars digits uint_value]; rewrite <- IHd; reflexivity.
Qed.

Lemma unsigned_literal_uint_chars (d : Decimal.uint) :
  d <> Decimal.Nil ->
  unsigned_literal (uint_chars d) = Some (uint_value 0 d).
Proof.
  unfold unsigned_literal.
  destruct d; intros H; [contradiction|..];
    cbn [uint_chars digits uint_value]; rewrite <- digits_uint_chars; reflexivity.
Qed.

Lemma of_uint_acc_value (d : Decimal.uint) (p : positive) :
  Z.pos (Pos.of_uint_acc d p) = uint_value (Z.pos p) d.
Proof.
  revert p. induction d; intros p; cbn [Pos.of_uint_acc uint_value];
    [f_equal; lia|..]; rewrite IHd; f_equal; lia.
Qed.

Lemma of_uint_value (d : Decimal.uint) : Z.of_uint d = uint_value 0 d.
Proof.
  unfold Z.of_uint.
  induction d; cbn [Pos.of_uint uint_value]; try assumption; try reflexivity;
    cbn [Z.of_N]; rewrite of_uint_acc_value; reflexivity.
Qed.

Lemma lstrip_no_space (l : list ascii) :
  Forall (fun c => is_space c = false) l -> lstrip l = l.
Proof. destruct 1 as [|c l Hc _]; [reflexivity|]. cbn. rewrite Hc. reflexivity. Qed.

Lemma strip_no_space (l : list ascii) :
  Forall (fun c => is_space c = false) l -> strip l = l.
Proof.
  intros H. unfold strip. rewrite (lstrip_no_space l H).
  rewrite lstrip_no_space; [apply rev_involutive|].
  apply Forall_rev. assumption.
Qed.

Lemma uint_chars_no_space (d : Decimal.uint) :
  Forall (fun c => is_space c = false) (uint_chars d).
Proof. induction d; cbn [uint_chars]; constructor; try assumption; reflexivity. Qed.

Lemma int_of_string_uint (d : Decimal.uint) :
  d <> Decimal.Nil ->
  int_of_string (DecimalString.NilEmpty.string_of_uint d) = Some (Z.of_uint d).
Proof.
  intros H. unfold int_of_string.
  rewrite uint_chars_spec, (strip_no_space _ (uint_chars_no_space d)).
  rewrite of_uint_value, <- (unsigned_literal_uint_chars d H).
  destruct d; [contradiction|..]; reflexivity.
Qed.

Lemma int_of_string_minus_uint (d : Decimal.uint) :
  d <> Decimal.Nil ->
  int_of_string (String "-" (DecimalString.NilEmpty.string_of_uint d))
  = Some (- Z.of_uint d)%Z.
Proof.
  intros H. unfold int_of_string. cbn [list_ascii_of_string].
  rewrite uint_chars_spec.
  rewrite (strip_no_space ("-"%char :: uint_chars d)).
  - rewrite (unsigned_literal_uint_chars d H), of_uint_value. reflexivity.
  - constructor; [reflexivity | apply uint_chars_no_space].
Qed.

Lemma int_of_decimal_text (z : Z) : int_of_string (decimal_text z) = Some z.
Proof.
  unfold decimal_text.
  rewrite <- (DecimalZ.of_to z) at 2.
  destruct z as [|p|p]; [reflexivity|..];
    cbn [Z.to_int DecimalString.NilZero.string_of_int Z.of_int];
    pose proof (DecimalPos.Unsigned.to_uint_nonnil p) as Hn;
    unfold DecimalString.NilZero.string_of_uint;
    destruct (Pos.to_uint p) eqn:E; try contradiction; rewrite <- E in *.
  all: first [apply int_of_string_uint; assumption
             |apply int_of_string_minus_uint; assumption].
Qed.

(** *** A start that gets as far as the first wait *)

Lemma startup_started (w : World) (z : Z) (cfg : dict) (st0 st1 : ScannerTrigger)
  (b : bool) (st2 : ScannerTrigger) :
  dlg_OK w = true ->
  int (dlg_skip_scans w) = inr z ->
  select_MR_settings (dlg_triggering w) z = inr cfg ->
  lib_create w (dlg_triggering w) cfg = inr st0 ->
  lib_open w st0 = inr st1 ->
  lib_waitForTrigger w z st1 = inr (b, st2) ->
  startup w
  = (until_wait w (config_of w z cfg) ++
     [St_waitForTrigger z (inr b); Logging_flush; TimeOutClock_reset],
     Ok (config_of w z cfg,
         mkVars b st2 (triggerTime st2) (mkClock (wall_at_reset w)) [])).
Proof.
  intros HOK Hint Hsel Hcr Hop Hwait.
  destruct (startup_spec w)
    as [H1|e H1 H2|z' e H1 H2 H3|z' cfg' e H1 H2 H3 H4
       |z' cfg' st0' e H1 H2 H3 H4 H5|z' cfg' st0' st1' e H1 H2 H3 H4 H5 H6
       |z' cfg' st0' st1' b' st2' H1 H2 H3 H4 H5 H6];
    congruence.
Qed.

Lemma startup_reaches_the_wait (w : World) (z : Z) (cfg : dict)
  (st0 st1 : ScannerTrigger) :
  dlg_OK w = true ->
  int (dlg_skip_scans w) = inr z ->
  select_MR_settings (dlg_triggering w) z = inr cfg ->
  lib_create w (dlg_triggering w) cfg = inr st0 ->
  lib_open w st0 = inr st1 ->
  exists tail,
    calls (startup w)
    = until_wait w (config_of w z cfg) ++
      St_waitForTrigger z (flag_of (lib_waitForTrigger w z st1)) :: tail.
Proof.
  intros HOK Hint Hsel Hcr Hop.
  destruct (startup_spec w)
    as [H1|e H1 H2|z' e H1 H2 H3|z' cfg' e H1 H2 H3 H4
       |z' cfg' st0' e H1 H2 H3 H4 H5|z' cfg' st0' st1' e H1 H2 H3 H4 H5 H6
       |z' cfg' st0' st1' b' st2' H1 H2 H3 H4 H5 H6];
    try congruence;
    rewrite Hint in H2; injection H2 as <-;
    rewrite Hsel in H3; try discriminate H3; injection H3 as <-;
    rewrite Hcr in H4; try discriminate H4; injection H4 as <-;
    rewrite Hop in H5; try discriminate H5; injection H5 as <-;
    rewrite H6; cbn [flag_of].
  - unfold guarded. destruct (isinstance_Exception e); cbn [calls fst].
    + rewrite <- app_assoc. cbn [app]. eexists. reflexivity.
    + exists []. reflexivity.
  - cbn [calls fst]. eexists. reflexivity.
Qed.

Lemma demo_reaches_the_wait (w : World) (fuel : nat) (z : Z) (cfg : dict)
  (st0 st1 : ScannerTrigger) :
  dlg_OK w = true ->
  int (dlg_skip_scans w) = inr z ->
  select_MR_settings (dlg_triggering w) z = inr cfg ->
  lib_create w (dlg_triggering w) cfg = inr st0 ->
  lib_open w st0 = inr st1 ->
  exists tail,
    calls (demo w fuel)
    = until_wait w (config_of w z cfg) ++
      St_waitForTrigger z (flag_of (lib_waitForTrigger w z st1)) :: tail.
Proof.
  intros HOK Hint Hsel Hcr Hop.
  destruct (demo_extends_startup w fuel) as (tail' & ->).
  destruct (startup_reaches_the_wait w z cfg st0 st1 HOK Hint Hsel Hcr Hop)
    as (tail & ->).
  rewrite <- app_assoc. cbn [app]. eexists. reflexivity.
Qed.

(** When the first wait returned a trigger and the loop is entered, the
    first pass shows the trigger text, with the skip count in it. *)
Lemma demo_shows_the_first_trigger (w : World) (fuel : nat) (z : Z) (cfg : dict)
  (st0 st1 st2 : ScannerTrigger) :
  dlg_OK w = true ->
  int (dlg_skip_scans w) = inr z ->
  select_MR_settings (dlg_triggering w) z = inr cfg ->
  lib_create w (dlg_triggering w) cfg = inr st0 ->
  lib_open w st0 = inr st1 ->
  lib_waitForTrigger w z st1 = inr (true, st2) ->
  escape_or_timeout w (mkVars true st2 (triggerTime st2)
                              (mkClock (wall_at_reset w)) []) 0 = false ->
  In (StimTrigger_setText (triggerCnt st2) (triggerTime st2)
                          (triggerTime st2 - triggerTime st2) z)
     (calls (demo w (S fuel))).
Proof.
  intros HOK Hint Hsel Hcr Hop Hwait Hgo.
  pose proof (startup_started w z cfg st0 st1 true st2 HOK Hint Hsel Hcr Hop Hwait)
    as Hs.
  assert (Hin : In (StimTrigger_setText (triggerCnt st2) (triggerTime st2)
                      (triggerTime st2 - triggerTime st2) z)
                   (calls (polling_loop w (config_of w z cfg) (S fuel) 0
                             (mkVars true st2 (triggerTime st2)
                                     (mkClock (wall_at_reset w)) [])))).
  { rewrite polling_loop_pass by assumption.
    assert (Hb : In (StimTrigger_setText (triggerCnt st2) (triggerTime st2)
                       (triggerTime st2 - triggerTime st2) z)
                    (block_calls (config_of w z cfg)
                       (mkVars true st2 (triggerTime st2)
                               (mkClock (wall_at_reset w)) [])))
      by (cbn; auto).
    destruct (lib_getTrigger w 0 _) as [e|r]; cbv zeta; cbn [calls fst];
      apply in_or_app; right; apply in_or_app; left; exact Hb. }
  rewrite (demo_started _ _ _ _ _ Hs).
  destruct (polling_loop w (config_of w z cfg) (S fuel) 0 _) as [t [v'|e|]];
    cbn [calls fst] in Hin |- *; apply in_or_app; right;
    try (apply in_or_app; left); exact Hin.
Qed.

(** C7: the dialog is opened on a dictionary with exactly the two fields
    "triggering" (a choice among six fixed strings, each of which the
    dispatch knows) and "skip scans" (the integer 0 to start with).  What
    the dialog leaves in "skip scans" goes through int() before it is
    used: int() hands an integer on as it is and reads the decimal text
    of an integer as that integer; whatever skip count reaches
    waitForTrigger, the text of the stimulus or the settings that create
    receives is that integer; and when the library can be created and
    opened, the converted count does reach create and waitForTrigger,
    and the trigger text as soon as the loop shows one. *)
Theorem dialog_fields_and_skip_conversion :
  keys expInfo = ["triggering"; "skip scans"] /\
  getitem expInfo "triggering"
  = Some (PList (map PStr ["keyboard"; "serial"; "parallel"; "cedrus";
                           "launchscan"; "dummy"])) /\
  (forall s, In s ["keyboard"; "serial"; "parallel"; "cedrus"; "launchscan"; "dummy"]
             <-> In s device_types) /\
  getitem expInfo "skip scans" = Some (PInt 0) /\
  (forall w fuel, exists rest,
      calls (demo w fuel) = Gui_DlgFromDict expInfo expName (dlg_OK w) :: rest) /\
  (forall w fuel skip r,
      In (St_waitForTrigger skip r) (calls (demo w fuel)) ->
      int (dlg_skip_scans w) = inr skip) /\
  (forall w fuel cnt onset delta skip,
      In (StimTrigger_setText cnt onset delta skip) (calls (demo w fuel)) ->
      int (dlg_skip_scans w) = inr skip) /\
  (forall w fuel pt cfg tmo k r,
      In (ScannerTrigger_create pt cfg tmo k r) (calls (demo w fuel)) ->
      exists skip,
        int (dlg_skip_scans w) = inr skip /\ pt = dlg_triggering w /\
        select_MR_settings pt skip = inr cfg) /\
  (forall z, int (PInt z) = inr z) /\
  (forall z, int (PStr (decimal_text z)) = inr z) /\
  (forall w fuel z cfg st0 st1,
      dlg_OK w = true ->
      int (dlg_skip_scans w) = inr z ->
      select_MR_settings (dlg_triggering w) z = inr cfg ->
      lib_create w (dlg_triggering w) cfg = inr st0 ->
      lib_open w st0 = inr st1 ->
      In (ScannerTrigger_create (dlg_triggering w) cfg 99999 "escape" None)
         (calls (demo w fuel)) /\
      In (St_waitForTrigger z (flag_of (lib_waitForTrigger w z st1)))
         (calls (demo w fuel)) /\
      forall st2,
        lib_waitForTrigger w z st1 = inr (true, st2) ->
        escape_or_timeout w (mkVars true st2 (triggerTime st2)
                                    (mkClock (wall_at_reset w)) []) 0 = false ->
        In (StimTrigger_setText (triggerCnt st2) (triggerTime st2)
                                (triggerTime st2 - triggerTime st2) z)
           (calls (demo w (S fuel)))).
Proof.
  split; [reflexivity|]. split; [reflexivity|].
  split; [intros s; cbn; tauto|]. split; [reflexivity|].
  split; [|split; [|split; [|split; [|split; [|split]]]]].
  - intros w fuel.
    destruct (demo_extends_startup w fuel) as (tail & ->).
    destruct (startup_begins_with_dialog w) as (rest & ->).
    eexists. reflexivity.
  - intros w fuel skip r Hin.
    destruct (demo_call_origin _ _ _ Hin) as [H|(t0 & c & v0 & _ & [H|H])];
      try discriminate H.
    apply (proj1 (startup_library_arguments w) _ _ H).
  - intros w fuel cnt onset delta skip Hin.
    destruct (demo_call_origin _ _ _ Hin) as [H|(t0 & c & v0 & Hs & [H|H])];
      try discriminate H.
    + destruct (proj2 (proj2 (startup_library_arguments w)) _ _ _ _ H).
    + destruct (startup_Ok _ _ _ _ Hs)
        as (z & cfg & st0 & st1 & b & st2 & _ & Hint & _ & _ & _ & _ & -> & _ & _).
      cbn in H. apply Z.eqb_eq in H. subst skip. assumption.
  - intros w fuel pt cfg tmo k r Hin.
    destruct (demo_call_origin _ _ _ Hin) as [H|(t0 & c & v0 & _ & [H|H])];
      try discriminate H.
    apply (proj1 (proj2 (startup_library_arguments w)) _ _ _ _ _ H).
  - intros z. reflexivity.
  - intros z. cbn [int]. rewrite int_of_decimal_text. reflexivity.
  - intros w fuel z cfg st0 st1 HOK Hint Hsel Hcr Hop.
    split; [|split].
    + destruct (demo_reaches_the_wait w fuel z cfg st0 st1 HOK Hint Hsel Hcr Hop)
        as (tail & ->).
      apply in_or_app. left. unfold until_wait, create_call, config_of.
      cbn [portType MR_settings]. apply in_or_app. right. left. reflexivity.
    + destruct (demo_reaches_the_wait w fuel z cfg st0 st1 HOK Hint Hsel Hcr Hop)
        as (tail & ->).
      apply in_or_app. right. left. reflexivity.
    + intros st2 Hwait Hgo.
      exact (demo_shows_the_first_trigger w fuel z cfg st0 st1 st2
               HOK Hint Hsel Hcr Hop Hwait Hgo).
Qed.

(** The vendor helper chosen and " 3 " typed into the skip field: the
    count 3 reaches create (inside the settings), waitForTrigger and the
    text of the first trigger. *)
Lemma typed_skip_count_reaches_the_calls :
  int (dlg_skip_scans MoreWorlds.launchscan_skip3) = inr 3%Z /\
  (exists cfg,
      select_MR_settings (PStr "launchscan") 3 = inr cfg /\
      In (ScannerTrigger_create (PStr "launchscan") cfg 99999 "escape" None)
         (calls (demo MoreWorlds.launchscan_skip3 10))) /\
  In (St_waitForTrigger 3 (inr true)) (calls (demo MoreWorlds.launchscan_skip3 10)) /\
  In (StimTrigger_setText 3 5 (5 - 5) 3) (calls (demo MoreWorlds.launchscan_skip3 10)).
Proof.
  pose (w := MoreWorlds.launchscan_skip3).
  assert (Hint : int (dlg_skip_scans w) = inr 3%Z) by reflexivity.
  destruct (select_MR_settings (dlg_triggering w) 3) as [e|cfg] eqn:Hsel;
    [discriminate Hsel|].
  pose proof (proj2 (proj2 (proj2 (proj2 (proj2 (proj2 (proj2 (proj2 (proj2 (proj2
                dialog_fields_and_skip_conversion)))))))))
                w 9%nat 3%Z cfg (mkSt 0 0) (mkSt 0 0)
                eq_refl Hint Hsel eq_refl eq_refl) as (Hc & Hw & Ht).
  split; [exact Hint|]. split; [|split].
  - exists cfg. split; [exact Hsel | exact Hc].
  - exact Hw.
  - exact (Ht (mkSt 5 3) eq_refl eq_refl).
Defined.

(** ** Two runs spelled out *)

Lemma steady_stops_at_fourth_check :
  exists t0 c v0,
    startup Worlds.steady = (t0, Ok (c, v0)) /\
    exists n,
      escape_or_timeout Worlds.steady v0 n = true /\
      (forall j, (j < n)%nat -> escape_or_timeout Worlds.steady v0 j = false) /\
      n = 3%nat.
Proof.
  pose (c := config_of Worlds.steady 0 [("keyList", PStr "t"); ("maxWait", PInt 9999999)]).
  pose (v0 := mkVars true (mkSt 5 0) 5 (mkClock 20) []).
  pose (v' := mkVars true (mkSt (5 + 2 + 2 + 2) (0 + 1 + 1 + 1)) (5 + 2 + 2)
                     (mkClock 20) [5 - 5; 5 + 2 - 5; 5 + 2 + 2 - (5 + 2)]).
  assert (Hs : startup Worlds.steady = (calls (startup Worlds.steady), Ok (c, v0)))
    by reflexivity.
  assert (Hl : polling_loop Worlds.steady c 10 0 v0
               = (calls (polling_loop Worlds.steady c 10 0 v0), Ok v'))
    by reflexivity.
  exists (calls (startup Worlds.steady)), c, v0. split; [exact Hs|].
  destruct (polling_loop_ends_on_escape_or_timeout _ _ _ _ Hs)
    as (_ & _ & Hexit & _).
  destruct (Hexit _ _ _ Hl) as (_ & _ & n & Hstop & Hbefore & Hn).
  exists n. split; [exact Hstop|]. split; [exact Hbefore|].
  rewrite <- Hn. reflexivity.
Defined.

(** A first wait that raises a RuntimeError is caught; a Ctrl-C is not. *)
Lemma wait_times_out_is_handled :
  demo Worlds.wait_times_out 5
  = (until_wait Worlds.wait_times_out
       (config_of Worlds.wait_times_out 3
          [("port", PStr "COM5"); ("baudrate", PInt 9600); ("sync", PStr "5")])
     ++ [St_waitForTrigger 3 (inl Worlds.timeout_error);
         Logging_flush;
         Builtin_print "ScannerTrigger Error: no trigger received";
         Core_quit],
     Raised SystemExit0).
Proof. reflexivity. Qed.

Lemma interrupted_is_not_handled :
  demo Worlds.interrupted 5
  = (until_wait Worlds.interrupted
       (config_of Worlds.interrupted 0
          [("keyList", PStr "t"); ("maxWait", PInt 9999999)])
     ++ [St_waitForTrigger 0 (inl Worlds.ctrl_c)],
     Raised Worlds.ctrl_c).
Proof. reflexivity. Qed.

(** With nobody at the keyboard the loop ends at the check of the
    hundredth second. *)
Lemma nobody_there_times_out :
  escape_or_timeout Worlds.nobody_there
    (mkVars true (mkSt 5 2) 5 (mkClock 20) []) 100 = true /\
  escape_or_timeout Worlds.nobody_there
    (mkVars true (mkSt 5 2) 5 (mkClock 20) []) 99 = false /\
  List.length (trigger_flags (calls (demo Worlds.nobody_there 101))) = 100%nat /\
  result (demo Worlds.nobody_there 101) = Raised SystemExit0 /\
  result (demo Worlds.nobody_there 100) = Looping.
Proof. vm_compute. repeat split. Qed.

(** ** The output section on an array with data *)



(** ** The deltas and the onsets on the screen *)







(** ** Runs as a whole *)

Lemma data_output_shape (array : list Q) :
  (tl array = [] /\
   data_output array
   = ([Logging_data MeanDelta Np.NaN; Logging_data StdevDelta Np.NaN],
      Raised (Np.zero_size "maximum"))) \/
  (exists x l mx mn,
      tl array = x :: l /\
      Np.max (x :: l) = inr mx /\ Np.min (x :: l) = inr mn /\
      data_output array
      = ([Logging_data MeanDelta (Np.mean (x :: l));
          Logging_data StdevDelta (Np.std (x :: l));
          Logging_data MaxDelta (Np.Fin mx);
          Logging_data MinDelta (Np.Fin mn);
          Logging_flush;
          Plt_figure;
          Plt_hist (x :: l) (Np.ceil_4_cbrt (List.length array));
          Plt_title (Np.mean (x :: l)) (Np.std (x :: l));
          Plt_xlabel "delta time";
          Plt_ylabel "frequency";
          Plt_show;
          St_close;
          Win_close;
          Core_quit],
         Raised SystemExit0)).
Proof.
  destruct (tl array) as [|x l] eqn:Htl.
  - left. split; [reflexivity|]. apply data_output_empty_slice. assumption.
  - right. destruct (data_output_slice _ _ _ Htl) as (mx & mn & Hmx & Hmn & Hout).
    exists x, l, mx, mn. auto.
Qed.

(** A run either ends in the start of the script, or is cut off in the
    loop, or leaves the loop by an exception, or goes through the output
    section. *)
Lemma demo_shape (w : World) (fuel : nat) :
  (exists t0 e, startup w = (t0, Raised e) /\ demo w fuel = (t0, Raised e)) \/
  (exists t0 c v0 t,
      startup w = (t0, Ok (c, v0)) /\
      Forall (fun ev => is_loop_call (dummyScans c) ev = true) t /\
      ((polling_loop w c fuel 0 v0 = (t, Looping) /\
        demo w fuel = (t0 ++ t, Looping)) \/
       (exists e, polling_loop w c fuel 0 v0 = (t, Raised e) /\
                  demo w fuel = (t0 ++ t, Raised e)) \/
       (exists v', polling_loop w c fuel 0 v0 = (t, Ok v') /\
                   demo w fuel
                   = (t0 ++ t ++ calls (data_output (deltaTriggerTimeArray v')),
                      result (data_output (deltaTriggerTimeArray v')))))).
Proof.
  destruct (startup w) as [t0 [[c v0]|e|]] eqn:Hs.
  - right. pose proof (polling_loop_calls w c fuel 0 v0) as Hloop.
    rewrite (demo_started _ _ _ _ _ Hs).
    destruct (polling_loop w c fuel 0 v0) as [t [v'|e|]] eqn:Hl;
      exists t0, c, v0, t; (split; [reflexivity|]); (split; [exact Hloop|]).
    + right. right. exists v'. split; [exact Hl | reflexivity].
    + right. left. exists e. split; [exact Hl | reflexivity].
    + left. split; [exact Hl | reflexivity].
  - left. exists t0, e. split; [reflexivity|]. apply demo_not_started. assumption.
  - exfalso. apply (startup_not_Looping w). rewrite Hs. reflexivity.
Qed.

Lemma startup_no_report (w : World) :
  Forall (fun ev => is_report ev = false) (calls (startup w)).
Proof.
  destruct (startup_spec w); unfold guarded;
    try destruct (isinstance_Exception e); repeat constructor.
Qed.

Lemma loop_call_no_report (skip : Z) (ev : Event) :
  is_loop_call skip ev = true -> is_report ev = false /\ ev <> Core_quit.
Proof. destruct ev; cbn; try discriminate; intros _; split; try reflexivity; discriminate. Qed.

Lemma loop_calls_no_report (skip : Z) (t : list Event) :
  Forall (fun ev => is_loop_call skip ev = true) t ->
  Forall (fun ev => is_report ev = false) t /\ ~ In Core_quit t.
Proof.
  intros H. rewrite Forall_forall in H. split.
  - apply Forall_forall. intros ev Hin. apply (loop_call_no_report skip _ (H _ Hin)).
  - intros Hin. apply (proj2 (loop_call_no_report skip _ (H _ Hin))). reflexivity.
Qed.

Lemma error_exit_snoc (t : list Event) (e : PyExn) :
  t ++ error_exit e
  = (t ++ [Logging_flush;
           Builtin_print ("ScannerTrigger Error: " ++ exn_str e)%string])
    ++ [Core_quit].
Proof. rewrite <- app_assoc. reflexivity. Qed.

(** core.quit() in the start of the script is its last call. *)
Lemma startup_quit (w : World) :
  In Core_quit (calls (startup w)) ->
  exists t, calls (startup w) = t ++ [Core_quit] /\ ~ In Core_quit t /\
            result (startup w) = Raised SystemExit0.
Proof.
  destruct (startup_spec w); unfold guarded;
    try destruct (isinstance_Exception e); cbn [calls fst result snd]; intros Hin.
  all: try (exfalso; cbn in Hin; intuition discriminate).
  - exists [dialog_shown w]. repeat split. cbn. intuition discriminate.
  - eexists. split; [apply error_exit_snoc|]. split; [|reflexivity].
    cbn. intuition discriminate.
  - eexists. split; [apply error_exit_snoc|]. split; [|reflexivity].
    cbn. intuition discriminate.
  - eexists. split; [apply error_exit_snoc|]. split; [|reflexivity].
    cbn. intuition discriminate.
Qed.

(** ** core.quit() ends every run *)

(** The script never runs off its end, and core.quit() is the last call
    of any run that makes it: a run has at most one, nothing is called
    after it, and the run ends in its SystemExit. *)
Theorem nothing_after_core_quit (w : World) (fuel : nat) :
  (forall u, result (demo w fuel) <> Ok u) /\
  (In Core_quit (calls (demo w fuel)) ->
   exists t,
     calls (demo w fuel) = t ++ [Core_quit] /\ ~ In Core_quit t /\
     result (demo w fuel) = Raised SystemExit0).
Proof.
  destruct (demo_shape w fuel)
    as [(t0 & e & Hs & Hd)|(t0 & c & v0 & t & Hs & Hloop & Hd)].
  - rewrite Hd. split; [discriminate|]. cbn [calls fst result snd]. intros Hin.
    pose proof (startup_quit w) as Hq. rewrite Hs in Hq.
    destruct (Hq Hin) as (t & Ht & Hnq & Hr). cbn [calls fst result snd] in *.
    injection Hr as ->. exists t. auto.
  - destruct (loop_calls_no_report _ _ Hloop) as [_ Hnq].
    assert (Hnq0 : ~ In Core_quit t0).
    { intros Hin. pose proof (startup_quit w) as Hq. rewrite Hs in Hq.
      destruct (Hq Hin) as (_ & _ & _ & Hr). discriminate Hr. }
    destruct Hd as [[_ ->]|[(e & _ & ->)|(v' & _ & ->)]].
    + split; [discriminate|]. cbn [calls fst]. intros Hin.
      apply in_app_or in Hin. tauto.
    + split; [discriminate|]. cbn [calls fst]. intros Hin.
      apply in_app_or in Hin. tauto.
    + destruct (data_output_shape (deltaTriggerTimeArray v'))
        as [[_ ->]|(x & l & mx & mn & _ & _ & _ & ->)]; cbn [calls fst result snd].
      * split; [discriminate|]. intros Hin.
        apply in_app_or in Hin as [Hin|Hin]; [tauto|].
        apply in_app_or in Hin as [Hin|Hin]; [tauto|].
        cbn in Hin. intuition discriminate.
      * split; [discriminate|]. intros _.
        eexists (t0 ++ t ++ [_; _; _; _; _; _; _; _; _; _; _; _; _]).
        rewrite <- !app_assoc. split; [reflexivity|]. split; [|reflexivity].
        intros Hin.
        apply in_app_or in Hin as [Hin|Hin]; [tauto|].
        apply in_app_or in Hin as [Hin|Hin]; [tauto|].
        cbn in Hin. intuition discriminate.
Qed.

(** ** The window and the trigger are closed on one path only *)

(** Every run whose dialog was accepted opens the window, but st.close()
    and win.close() are called only at the end of a run that has shown
    the histogram: a run that ends in an except clause, in the
    ValueError of the dispatch or of max(), or in an exception out of
    the loop closes neither. *)
Theorem close_only_after_the_histogram (w : World) (fuel : nat) :
  (dlg_OK w = true -> In Visual_Window (calls (demo w fuel))) /\
  (In St_close (calls (demo w fuel)) \/ In Win_close (calls (demo w fuel)) ->
   exists t,
     calls (demo w fuel) = t ++ [Plt_show; St_close; Win_close; Core_quit] /\
     result (demo w fuel) = Raised SystemExit0).
Proof.
  split.
  - intros HOK.
    destruct (demo_extends_startup w fuel) as (tail & ->).
    apply in_or_app. left.
    destruct (startup_spec w); unfold guarded, until_wait, until_create;
      try destruct (isinstance_Exception e); try congruence;
      cbn; tauto.
  - intros Hin.
    assert (Hrep : exists ev, (ev = St_close \/ ev = Win_close) /\
                              In ev (calls (demo w fuel))).
    { destruct Hin as [Hin|Hin]; eexists; (split; [|exact Hin]); tauto. }
    clear Hin. destruct Hrep as (ev & Hev & Hin).
    assert (Hrep : is_report ev = true) by (destruct Hev as [->| ->]; reflexivity).
    pose proof (startup_no_report w) as H0. rewrite Forall_forall in H0.
    destruct (demo_shape w fuel)
      as [(t0 & e & Hs & Hd)|(t0 & c & v0 & t & Hs & Hloop & Hd)];
      rewrite Hs in H0; cbn [calls fst] in H0.
    + rewrite Hd in Hin. rewrite (H0 _ Hin) in Hrep. discriminate.
    + destruct (loop_calls_no_report _ _ Hloop) as [Hnr _].
      rewrite Forall_forall in Hnr.
      assert (Hpre : ~ In ev (t0 ++ t)).
      { intros H. apply in_app_or in H as [H|H];
          [rewrite (H0 _ H) in Hrep | rewrite (Hnr _ H) in Hrep]; discriminate. }
      destruct Hd as [[_ Hd]|[(e & _ & Hd)|(v' & _ & Hd)]]; rewrite Hd in Hin |- *;
        [cbn [calls fst] in Hin; tauto | cbn [calls fst] in Hin; tauto |].
      destruct (data_output_shape (deltaTriggerTimeArray v'))
        as [[_ Ho]|(x & l & mx & mn & _ & _ & _ & Ho)];
        rewrite Ho in Hin |- *; cbn [calls fst result snd] in Hin |- *.
      * exfalso. rewrite app_assoc in Hin. apply in_app_or in Hin as [Hin|Hin]; [tauto|].
        cbn in Hin. destruct Hin as [Hin|[Hin|[]]];
          destruct Hev as [->| ->]; discriminate Hin.
      * eexists (t0 ++ t ++ [_; _; _; _; _; _; _; _; _; _]).
        rewrite <- !app_assoc. split; reflexivity.
Qed.

(** ** The order of the calls on the trigger library *)

Lemma lib_run_app (s : LibState) (t1 t2 : list Event) :
  lib_run s (t1 ++ t2)
  = match lib_run s t1 with
    | Some s' => lib_run s' t2
    | None => None
    end.
Proof.
  revert s. induction t1 as [|ev t1 IH]; intros s; [reflexivity|].
  cbn [app lib_run]. destruct (lib_step s ev); [apply IH | reflexivity].
Qed.

Lemma lib_run_app_Some (s s' : LibState) (t1 t2 : list Event) :
  lib_run s t1 = Some s' -> lib_run s (t1 ++ t2) = lib_run s' t2.
Proof. intros H. rewrite lib_run_app, H. reflexivity. Qed.

Lemma lib_run_condition (w : World) (v : Vars) (i : nat) (s : LibState) :
  lib_run s (condition_calls w v i) = Some s.
Proof. unfold condition_calls. destruct (escape_pressed w i); reflexivity. Qed.

Lemma lib_run_block (c : Config) (v : Vars) (s : LibState) :
  lib_run s (block_calls c v) = Some s.
Proof. unfold block_calls. destruct (triggered v); reflexivity. Qed.

(** The loop keeps polling a library that has triggered, and stops
    calling it when a poll raises. *)
Lemma polling_loop_lib_run (w : World) (c : Config) (fuel i : nat) (v : Vars) :
  lib_run Triggering (calls (polling_loop w c fuel i v))
  = Some (match result (polling_loop w c fuel i v) with
          | Raised _ => Failed
          | _ => Triggering
          end).
Proof.
  apply (polling_loop_rule w c
           (fun _ _ m => lib_run Triggering (calls m)
                         = Some (match result m with
                                 | Raised _ => Failed
                                 | _ => Triggering
                                 end)));
    cbn [calls fst result snd]; intros.
  - reflexivity.
  - apply lib_run_condition.
  - rewrite lib_run_app, lib_run_condition. cbv beta iota.
    rewrite lib_run_app, lib_run_block. reflexivity.
  - rewrite lib_run_app, lib_run_condition. cbv beta iota.
    rewrite lib_run_app, lib_run_block. cbn. assumption.
Qed.

Lemma startup_lib_run (w : World) :
  lib_run NotCreated (calls (startup w))
  = Some (match result (startup w) with
          | Ok _ => Triggering
          | _ =>
              if existsb (fun ev => match guarded_raise ev with
                                    | Some _ => true
                                    | None => false
                                    end) (calls (startup w))
              then Failed else NotCreated
          end).
Proof.
  destruct (startup_spec w); unfold guarded;
    try destruct (isinstance_Exception e); reflexivity.
Qed.

(** In every run the trigger library is called in its order: create
    once, then open, then waitForTrigger, then getTrigger polls only,
    then close at most once; and after a call on it has raised, it is
    not called again.  The library is closed exactly in the runs that
    call st.close(). *)
Theorem library_is_called_in_order (w : World) (fuel : nat) :
  exists s,
    lib_run NotCreated (calls (demo w fuel)) = Some s /\
    (s = Closed <-> In St_close (calls (demo w fuel))).
Proof.
  pose proof (startup_lib_run w) as H0.
  pose proof (startup_no_report w) as Hr0. rewrite Forall_forall in Hr0.
  destruct (demo_shape w fuel)
    as [(t0 & e & Hs & Hd)|(t0 & c & v0 & t & Hs & Hloop & Hd)];
    rewrite Hs in H0, Hr0; cbn [calls fst result snd] in H0, Hr0.
  - rewrite Hd. cbn [calls fst result snd]. eexists. split; [exact H0|].
    split.
    + intros H. destruct (existsb _ t0); discriminate H.
    + intros H. discriminate (Hr0 _ H).
  - pose proof (polling_loop_lib_run w c fuel 0 v0) as Hl.
    destruct (loop_calls_no_report _ _ Hloop) as [Hnr _].
    rewrite Forall_forall in Hnr.
    assert (Hpre : ~ In St_close (t0 ++ t)).
    { intros H. apply in_app_or in H as [H|H];
        [discriminate (Hr0 _ H) | discriminate (Hnr _ H)]. }
    destruct Hd as [[Hp Hd]|[(e & Hp & Hd)|(v' & Hp & Hd)]];
      rewrite Hp in Hl; cbn [calls fst result snd] in Hl; rewrite Hd.
    + cbn [calls fst result snd]. rewrite (lib_run_app_Some _ _ _ _ H0), Hl.
      eexists. split; [reflexivity|].
      split; [discriminate | tauto].
    + cbn [calls fst result snd]. rewrite (lib_run_app_Some _ _ _ _ H0), Hl.
      eexists. split; [reflexivity|].
      split; [discriminate | tauto].
    + destruct (data_output_shape (deltaTriggerTimeArray v'))
        as [[_ Ho]|(x & l & mx & mn & _ & _ & _ & Ho)];
        rewrite Ho; cbn [calls fst result snd];
        rewrite (lib_run_app_Some _ _ _ _ H0), (lib_run_app_Some _ _ _ _ Hl).
      * eexists. split; [reflexivity|]. split; [discriminate|].
        intros H. rewrite app_assoc in H. apply in_app_or in H as [H|H]; [tauto|].
        cbn in H. destruct H as [H|[H|[]]]; discriminate H.
      * eexists. split; [reflexivity|].
        split; [intros _ | intros _; reflexivity].
        apply in_or_app. right. apply in_or_app. right. cbn. tauto.
Qed.

(** ** An exception out of a poll *)

(** When a getTrigger poll raises, that poll is the last call of the run
    and the run ends with the exception: what the loop has collected is
    neither logged nor plotted, and neither trigger nor window is closed. *)
Theorem poll_exception_ends_the_run (w : World) (fuel : nat) (e : PyExn) :
  In (St_getTrigger (inl e)) (calls (demo w fuel)) ->
  (exists t, calls (demo w fuel) = t ++ [St_getTrigger (inl e)]) /\
  result (demo w fuel) = Raised e /\
  Forall (fun ev => is_report ev = false) (calls (demo w fuel)) /\
  ~ In Core_quit (calls (demo w fuel)).
Proof.
  intros Hin.
  pose proof (startup_no_poll w (inl e)) as Hno.
  pose proof (startup_no_report w) as Hr0.
  destruct (demo_shape w fuel)
    as [(t0 & e0 & Hs & Hd)|(t0 & c & v0 & t & Hs & Hloop & Hd)];
    rewrite Hs in Hno, Hr0; cbn [calls fst] in Hno, Hr0.
  - rewrite Hd in Hin. destruct (Hno Hin).
  - pose proof (polling_loop_poll_raised w c fuel 0 v0 e) as Hpr.
    pose proof (polling_loop_raised w c fuel 0 v0) as Hlast.
    destruct (loop_calls_no_report _ _ Hloop) as [Hnr Hnq].
    assert (Hq0 : ~ In Core_quit t0).
    { intros H. pose proof (startup_quit w) as Hq. rewrite Hs in Hq.
      destruct (Hq H) as (_ & _ & _ & Hres). discriminate Hres. }
    destruct Hd as [[Hp Hd]|[(e1 & Hp & Hd)|(v' & Hp & Hd)]];
      rewrite Hp in Hpr, Hlast; cbn [calls fst result snd] in Hpr, Hlast;
      rewrite Hd in Hin |- *; cbn [calls fst result snd] in Hin |- *.
    + apply in_app_or in Hin as [Hin|Hin]; [destruct (Hno Hin)|].
      discriminate (Hpr Hin).
    + apply in_app_or in Hin as [Hin|Hin]; [destruct (Hno Hin)|].
      injection (Hpr Hin) as ->.
      destruct (Hlast e eq_refl) as (t' & ->).
      split; [exists (t0 ++ t'); apply app_assoc|].
      split; [reflexivity|].
      split; [apply Forall_app; split; assumption|].
      intros H. apply in_app_or in H. tauto.
    + apply in_app_or in Hin as [Hin|Hin]; [destruct (Hno Hin)|].
      apply in_app_or in Hin as [Hin|Hin]; [discriminate (Hpr Hin)|].
      pose proof (data_output_calls (deltaTriggerTimeArray v')) as Hout.
      rewrite Forall_forall in Hout. discriminate (Hout _ Hin).
Qed.

Lemma poll_fails_at_third_poll :
  In (St_getTrigger (inl MoreWorlds.port_lost)) (calls (demo MoreWorlds.poll_fails 10)) /\
  result (demo MoreWorlds.poll_fails 10) = Raised MoreWorlds.port_lost /\
  trigger_flags (calls (demo MoreWorlds.poll_fails 10)) = [true; true].
Proof.
  assert (H : In (St_getTrigger (inl MoreWorlds.port_lost))
                 (calls (demo MoreWorlds.poll_fails 10))).
  { vm_compute. tauto. }
  split; [exact H|].
  split; [exact (proj1 (proj2 (poll_exception_ends_the_run _ _ _ H)))|].
  reflexivity.
Defined.

(** ** Nothing is reported before the loop has ended *)

(** A statistic is logged, a figure is drawn, the trigger or the window
    is closed only in a run whose loop was left through its condition:
    at some check escape was down or the clock showed 100 s or more. *)
Theorem reports_only_after_the_loop (w : World) (fuel : nat) (ev : Event) :
  is_report ev = true ->
  In ev (calls (demo w fuel)) ->
  exists t0 c v0 t v' n,
    startup w = (t0, Ok (c, v0)) /\
    polling_loop w c fuel 0 v0 = (t, Ok v') /\
    escape_or_timeout w v0 n = true /\
    (exists t1 t2, calls (demo w fuel) = (t0 ++ t) ++ t1 ++ ev :: t2).
Proof.
  intros Hrep Hin.
  pose proof (startup_no_report w) as Hr0. rewrite Forall_forall in Hr0.
  destruct (demo_shape w fuel)
    as [(t0 & e0 & Hs & Hd)|(t0 & c & v0 & t & Hs & Hloop & Hd)];
    rewrite Hs in Hr0; cbn [calls fst] in Hr0.
  - rewrite Hd in Hin. rewrite (Hr0 _ Hin) in Hrep. discriminate.
  - destruct (loop_calls_no_report _ _ Hloop) as [Hnr _].
    rewrite Forall_forall in Hnr.
    assert (Hpre : ~ In ev (t0 ++ t)).
    { intros H. apply in_app_or in H as [H|H];
        [rewrite (Hr0 _ H) in Hrep | rewrite (Hnr _ H) in Hrep]; discriminate. }
    destruct Hd as [[Hp Hd]|[(e1 & Hp & Hd)|(v' & Hp & Hd)]];
      rewrite Hd in Hin |- *;
      [cbn [calls fst] in Hin; tauto | cbn [calls fst] in Hin; tauto |].
    cbn [calls fst] in Hin |- *.
    rewrite app_assoc in Hin. apply in_app_or in Hin as [Hin|Hin]; [tauto|].
    destruct (polling_loop_exit_check _ _ _ _ _ _ _ Hp) as (n & _ & Hstop & _).
    destruct (in_split _ _ Hin) as (t1 & t2 & Hsplit).
    exists t0, c, v0, t, v', n.
    split; [assumption|]. split; [assumption|]. split; [assumption|].
    exists t1, t2. rewrite Hsplit, app_assoc. reflexivity.
Qed.

Lemma histogram_of_steady_after_escape :
  is_report Plt_show = true /\
  In Plt_show (calls (demo Worlds.steady 10)) /\
  exists t0 c v0 t v' n,
    startup Worlds.steady = (t0, Ok (c, v0)) /\
    polling_loop Worlds.steady c 10 0 v0 = (t, Ok v') /\
    escape_or_timeout Worlds.steady v0 n = true.
Proof.
  assert (H : In Plt_show (calls (demo Worlds.steady 10))).
  { vm_compute. tauto. }
  split; [reflexivity|]. split; [exact H|].
  destruct (reports_only_after_the_loop Worlds.steady 10 Plt_show eq_refl H)
    as (t0 & c & v0 & t & v' & n & Hs & Hl & Hstop & _).
  exists t0, c, v0, t, v', n.
  split; [exact Hs|]. split; [exact Hl | exact Hstop].
Defined.

(** ** The settings of the vendor helper *)

(** Only the launchscan settings depend on the skip count, and in a run
    on launchscan the count inside the settings that create receives is
    the one that waitForTrigger is called with. *)
Theorem launchscan_settings_carry_the_skip_count :
  (forall v d1 d2,
      v <> PStr "launchscan" -> select_MR_settings v d1 = select_MR_settings v d2) /\
  (forall w fuel cfg tmo k r skip r',
      In (ScannerTrigger_create (PStr "launchscan") cfg tmo k r) (calls (demo w fuel)) ->
      In (St_waitForTrigger skip r') (calls (demo w fuel)) ->
      exists settings,
        getitem cfg "settings" = Some (PDict settings) /\
        getitem settings "skip" = Some (PInt skip)).
Proof.
  split.
  - intros v d1 d2 Hne. unfold select_MR_settings.
    repeat match goal with
           | |- context [if eq_str v ?k then _ else _] =>
               destruct (eq_str v k) eqn:?; [try reflexivity|]
           end; try reflexivity.
    exfalso. apply Hne. destruct v; try discriminate.
    cbn in *. apply String.eqb_eq in Heqb4. congruence.
  - intros w fuel cfg tmo k r skip r' Hc Hw.
    assert (Hc0 : In (ScannerTrigger_create (PStr "launchscan") cfg tmo k r)
                     (calls (startup w))).
    { destruct (demo_call_origin _ _ _ Hc) as [H|(t0 & c & v0 & _ & [H|H])];
        [assumption | discriminate H | discriminate H]. }
    assert (Hw0 : In (St_waitForTrigger skip r') (calls (startup w))).
    { destruct (demo_call_origin _ _ _ Hw) as [H|(t0 & c & v0 & _ & [H|H])];
        [assumption | discriminate H | discriminate H]. }
    destruct (startup_library_arguments w) as (Hwait & Hcreate & _).
    destruct (Hcreate _ _ _ _ _ Hc0) as (skip0 & Hint & _ & Hsel).
    rewrite (Hwait _ _ Hw0) in Hint. injection Hint as <-.
    cbn in Hsel. injection Hsel as <-.
    eexists. split; reflexivity.
Qed.

Lemma launchscan_skip_three :
  exists cfg settings,
    In (ScannerTrigger_create (PStr "launchscan") cfg 99999 "escape" None)
       (calls (demo MoreWorlds.launchscan_skip3 10)) /\
    In (St_waitForTrigger 3 (inr true)) (calls (demo MoreWorlds.launchscan_skip3 10)) /\
    getitem cfg "settings" = Some (PDict settings) /\
    getitem settings "skip" = Some (PInt 3).
Proof.
  pose (cfg := [ ("wait_msg", PStr "Waiting for scanner"); ("esc_key", PStr "escape");
                 ("log", PBool true); ("wait_timeout", PInt 100);
                 ("settings", PDict [ ("TR", PInt 1); ("volumes", PInt 100);
                                      ("sync", PStr "t"); ("skip", PInt 3);
                                      ("sound", PBool false) ]) ]).
  assert (Hc : In (ScannerTrigger_create (PStr "launchscan") cfg 99999 "escape" None)
                  (calls (demo MoreWorlds.launchscan_skip3 10))).
  { vm_compute. tauto. }
  assert (Hw : In (St_waitForTrigger 3 (inr true))
                  (calls (demo MoreWorlds.launchscan_skip3 10))).
  { vm_compute. tauto. }
  destruct (proj2 launchscan_settings_carry_the_skip_count _ _ _ _ _ _ _ _ Hc Hw)
    as (settings & Hs1 & Hs2).
  exists cfg, settings.
  split; [exact Hc|]. split; [exact Hw|]. split; [exact Hs1 | exact Hs2].
Defined.

(** ** What reaches the console *)

Lemma flushed_from_no_data_pending (t : list Event)
  (pending : list (Statistic * Np.npfloat)) :
  Forall (fun ev => is_logging_data ev = false) t ->
  (forall ev, In ev t -> ev <> Logging_flush) ->
  flushed_from pending t = [].
Proof.
  induction 1 as [|ev t Hev _ IH]; intros Hnf; [reflexivity|].
  destruct ev; cbn in *; try (apply IH; intros; apply Hnf; tauto);
    try discriminate.
  exfalso. apply (Hnf Logging_flush); tauto.
Qed.

(** In a run that gets through the output section, the flushes of the
    script put exactly four records on the console, in this order: mean,
    standard deviation, maximum, minimum of the slice. *)
Theorem console_shows_the_four_statistics
  (w : World) (t0 : list Event) (c : Config) (v0 : Vars) (fuel : nat)
  (t : list Event) (v' : Vars) :
  startup w = (t0, Ok (c, v0)) ->
  polling_loop w c fuel 0 v0 = (t, Ok v') ->
  (2 <= List.length (deltaTriggerTimeArray v'))%nat ->
  exists mx mn,
    Np.max (tl (deltaTriggerTimeArray v')) = inr mx /\
    Np.min (tl (deltaTriggerTimeArray v')) = inr mn /\
    console_data (calls (demo w fuel))
    = [(MeanDelta, Np.mean (tl (deltaTriggerTimeArray v')));
       (StdevDelta, Np.std (tl (deltaTriggerTimeArray v')));
       (MaxDelta, Np.Fin mx);
       (MinDelta, Np.Fin mn)].
Proof.
  intros Hs Hl Hlen.
  pose proof (polling_loop_calls w c fuel 0 v0) as Hloop.
  rewrite Hl in Hloop. cbn [calls fst] in Hloop. rewrite Forall_forall in Hloop.
  destruct (startup_Ok _ _ _ _ Hs)
    as (z & cfg & st0 & st1 & b & st2 & _ & _ & _ & _ & _ & _ & Hc & _ & Ht0).
  destruct (until_wait_kind w c b) as (_ & Hdata0 & _).
  replace z with (dummyScans c) in Ht0 by (rewrite Hc; reflexivity).
  rewrite <- Ht0 in Hdata0.
  destruct (data_output_shape (deltaTriggerTimeArray v'))
    as [[Htl _]|(x & l & mx & mn & Htl & Hmx & Hmn & Ho)].
  { destruct (deltaTriggerTimeArray v') as [|d [|d' l']]; cbn in *; try lia.
    discriminate Htl. }
  exists mx, mn. rewrite Htl. split; [assumption|]. split; [assumption|].
  rewrite (demo_started _ _ _ _ _ Hs), Hl, Ho. cbn [calls fst].
  unfold console_data. rewrite flushed_from_no_data by assumption.
  rewrite flushed_from_no_data.
  2:{ apply Forall_forall. intros ev Hin. apply (loop_call_kind _ _ (Hloop _ Hin)). }
  reflexivity.
Qed.

Lemma console_of_steady :
  console_data (calls (demo Worlds.steady 10))
  = [(MeanDelta, Np.mean [5 + 2 - 5; 5 + 2 + 2 - (5 + 2)]);
     (StdevDelta, Np.std [5 + 2 - 5; 5 + 2 + 2 - (5 + 2)]);
     (MaxDelta, Np.Fin (5 + 2 - 5));
     (MinDelta, Np.Fin (5 + 2 - 5))].
Proof.
  pose (c := config_of Worlds.steady 0 [("keyList", PStr "t"); ("maxWait", PInt 9999999)]).
  pose (v0 := mkVars true (mkSt 5 0) 5 (mkClock 20) []).
  pose (v' := mkVars true (mkSt (5 + 2 + 2 + 2) (0 + 1 + 1 + 1)) (5 + 2 + 2)
                     (mkClock 20) [5 - 5; 5 + 2 - 5; 5 + 2 + 2 - (5 + 2)]).
  assert (Hs : startup Worlds.steady = (calls (startup Worlds.steady), Ok (c, v0)))
    by reflexivity.
  assert (Hl : polling_loop Worlds.steady c 10 0 v0
               = (calls (polling_loop Worlds.steady c 10 0 v0), Ok v'))
    by reflexivity.
  assert (Hlen : (2 <= List.length (deltaTriggerTimeArray v'))%nat) by (cbn; lia).
  destruct (console_shows_the_four_statistics _ _ _ _ _ _ _ Hs Hl Hlen)
    as (mx & mn & Hmx & Hmn & Hcon).
  rewrite Hcon. cbn in Hmx, Hmn. injection Hmx as <-. injection Hmn as <-.
  reflexivity.
Defined.

(** ** The histogram *)

Lemma ceil_4_cbrt_bounds (n : nat) :
  (2 <= n)%nat -> (6 <= Np.ceil_4_cbrt n <= 4 * Z.of_nat n)%Z.
Proof.
  intros Hn. destruct (ceil_4_cbrt_spec n) as (H0 & Hup & Hlow).
  split.
  - destruct (Z_lt_le_dec (Np.ceil_4_cbrt n) 6) as [Hlt|]; [|assumption].
    exfalso.
    assert (Np.ceil_4_cbrt n * Np.ceil_4_cbrt n * Np.ceil_4_cbrt n <= 125)%Z by nia.
    lia.
  - destruct (Z_lt_le_dec (4 * Z.of_nat n) (Np.ceil_4_cbrt n)) as [Hlt|]; [|lia].
    exfalso. specialize (Hlow (4 * Z.of_nat n)%Z). nia.
Qed.

(** Whenever plt.hist is called, its data is the non-empty slice after
    the first entry and its bin count, computed from one more than the
    size of the data, lies between 6 and four times that number. *)
Theorem histogram_has_data_and_bins (w : World) (fuel : nat) (x : list Q) (bins : Z) :
  In (Plt_hist x bins) (calls (demo w fuel)) ->
  x <> [] /\
  bins = Np.ceil_4_cbrt (S (List.length x)) /\
  (6 <= bins <= 4 * Z.of_nat (S (List.length x)))%Z /\
  exists t0 c v0 t v',
    startup w = (t0, Ok (c, v0)) /\
    polling_loop w c fuel 0 v0 = (t, Ok v') /\
    x = tl (deltaTriggerTimeArray v').
Proof.
  intros Hin.
  pose proof (startup_no_report w) as Hr0. rewrite Forall_forall in Hr0.
  destruct (demo_shape w fuel)
    as [(t0 & e0 & Hs & Hd)|(t0 & c & v0 & t & Hs & Hloop & Hd)];
    rewrite Hs in Hr0; cbn [calls fst] in Hr0.
  - rewrite Hd in Hin. discriminate (Hr0 _ Hin).
  - destruct (loop_calls_no_report _ _ Hloop) as [Hnr _].
    rewrite Forall_forall in Hnr.
    assert (Hpre : ~ In (Plt_hist x bins) (t0 ++ t)).
    { intros H. apply in_app_or in H as [H|H];
        [discriminate (Hr0 _ H) | discriminate (Hnr _ H)]. }
    destruct Hd as [[Hp Hd]|[(e1 & Hp & Hd)|(v' & Hp & Hd)]];
      rewrite Hd in Hin;
      [cbn [calls fst] in Hin; tauto | cbn [calls fst] in Hin; tauto |].
    destruct (data_output_shape (deltaTriggerTimeArray v'))
      as [[_ Ho]|(y & l & mx & mn & Htl & _ & _ & Ho)];
      rewrite Ho in Hin; cbn [calls fst] in Hin;
      rewrite app_assoc in Hin; apply in_app_or in Hin as [Hin|Hin]; try tauto.
    + cbn in Hin. destruct Hin as [H|[H|[]]]; discriminate H.
    + cbn in Hin.
      repeat (destruct Hin as [Hin|Hin]; [try discriminate Hin|]);
        try contradiction.
      injection Hin as <- <-.
      assert (Hlen : List.length (deltaTriggerTimeArray v') = S (List.length (y :: l))).
      { destruct (deltaTriggerTimeArray v') as [|d a]; [discriminate Htl|].
        cbn in Htl. subst a. reflexivity. }
      rewrite Hlen.
      split; [discriminate|]. split; [reflexivity|].
      split; [apply ceil_4_cbrt_bounds; cbn; lia|].
      exists t0, c, v0, t, v'. auto.
Qed.

Lemma histogram_of_steady :
  In (Plt_hist [5 + 2 - 5; 5 + 2 + 2 - (5 + 2)] 6) (calls (demo Worlds.steady 10)) /\
  (6 <= 6 <= 4 * Z.of_nat 3)%Z.
Proof.
  assert (H : In (Plt_hist [5 + 2 - 5; 5 + 2 + 2 - (5 + 2)] 6)
                 (calls (demo Worlds.steady 10))).
  { vm_compute. tauto. }
  split; [exact H|].
  exact (proj1 (proj2 (proj2 (histogram_has_data_and_bins _ _ _ _ H)))).
Defined.

(** ** What the dialog can leave behind *)

(** A skip field that int() refuses (text that is no decimal number,
    None, a list) ends the script with the exception of int(), right
    after the stimuli are built: no call on the trigger library is made,
    no except clause runs, and the window stays as it is. *)
Theorem skip_that_is_no_number_ends_the_script (w : World) (fuel : nat) (e : PyExn) :
  dlg_OK w = true ->
  int (dlg_skip_scans w) = inl e ->
  demo w fuel = (dialog_shown w :: stimuli_calls, Raised e) /\
  lib_run NotCreated (calls (demo w fuel)) = Some NotCreated /\
  ~ In Win_close (calls (demo w fuel)) /\
  ~ In Core_quit (calls (demo w fuel)).
Proof.
  intros HOK Hint.
  assert (Hd : demo w fuel = (dialog_shown w :: stimuli_calls, Raised e)).
  { apply demo_not_started. destruct (startup_spec w); congruence. }
  split; [assumption|]. rewrite Hd. cbn [calls fst].
  split; [reflexivity|]. split; cbn; intuition discriminate.
Qed.

Lemma skip_is_text_ends_the_script :
  dlg_OK MoreWorlds.skip_is_text = true /\
  int (dlg_skip_scans MoreWorlds.skip_is_text)
  = inl (ValueError "invalid literal for int() with base 10: 'two'") /\
  result (demo MoreWorlds.skip_is_text 10)
  = Raised (ValueError "invalid literal for int() with base 10: 'two'").
Proof.
  split; [reflexivity|]. split; [reflexivity|].
  destruct (skip_that_is_no_number_ends_the_script
              MoreWorlds.skip_is_text 10 _ eq_refl eq_refl) as (Hd & _).
  rewrite Hd. reflexivity.
Defined.

(** The comparisons of the dispatch are with strings: a device value of
    any other type, such as the list of choices that the dialog was
    opened with, falls through to the ValueError, and the run ends there
    like one with an unknown string. *)
Theorem device_that_is_no_string_raises_ValueError
  (w : World) (fuel : nat) (z : Z) :
  (forall s, dlg_triggering w <> PStr s) ->
  select_MR_settings (dlg_triggering w) z = inl port_type_error /\
  (dlg_OK w = true ->
   int (dlg_skip_scans w) = inr z ->
   demo w fuel = (dialog_shown w :: stimuli_calls, Raised port_type_error)).
Proof.
  intros Hv.
  assert (Hsel : forall d, select_MR_settings (dlg_triggering w) d = inl port_type_error).
  { intros d. destruct (dlg_triggering w) as [| | |s| | |]; try reflexivity.
    destruct (Hv s eq_refl). }
  split; [apply Hsel|]. intros HOK Hint.
  apply demo_not_started.
  destruct (startup_spec w);
    try congruence;
    try match goal with
        | H : select_MR_settings (dlg_triggering w) ?z' = inr _ |- _ =>
            rewrite (Hsel z') in H; discriminate H
        end.
Qed.

Lemma untouched_choice_list_raises_ValueError :
  (forall s, dlg_triggering MoreWorlds.device_is_list <> PStr s) /\
  getitem expInfo "triggering" = Some (dlg_triggering MoreWorlds.device_is_list) /\
  demo MoreWorlds.device_is_list 10
  = (dialog_shown MoreWorlds.device_is_list :: stimuli_calls, Raised port_type_error).
Proof.
  assert (H : forall s, dlg_triggering MoreWorlds.device_is_list <> PStr s)
    by (intros s; discriminate).
  split; [exact H|]. split; [reflexivity|].
  exact (proj2 (device_that_is_no_string_raises_ValueError
                  MoreWorlds.device_is_list 10 0 H) eq_refl eq_refl).
Defined.

(** ** Drawing and flipping *)

Lemma draw_then_flip_app (t1 t2 : list Event) :
  draw_then_flip t1 = true ->
  draw_then_flip t2 = true ->
  draw_then_flip (t1 ++ t2) = true.
Proof.
  intros H1 H2.
  assert (H : forall n t, (List.length t <= n)%nat ->
                          draw_then_flip t = true ->
                          draw_then_flip (t ++ t2) = true).
  { induction n as [|n IH]; intros t Hlen Ht.
    - destruct t; [assumption | cbn in Hlen; lia].
    - destruct t as [|ev t]; [assumption|].
      cbn [List.length] in Hlen.
      destruct ev; cbn [draw_then_flip app] in Ht |- *;
        try (apply IH; [lia | assumption]); try discriminate Ht.
      destruct t as [|ev' t]; [discriminate Ht|].
      destruct ev'; try discriminate Ht.
      cbn [app]. apply IH; [cbn [List.length] in Hlen; lia | assumption]. }
  apply (H (List.length t1)); [lia | assumption].
Qed.

Lemma draw_then_flip_condition (w : World) (v : Vars) (i : nat) :
  draw_then_flip (condition_calls w v i) = true.
Proof. unfold condition_calls. destruct (escape_pressed w i); reflexivity. Qed.

Lemma draw_then_flip_block (c : Config) (v : Vars) :
  draw_then_flip (block_calls c v) = true.
Proof. unfold block_calls. destruct (triggered v); reflexivity. Qed.

Lemma polling_loop_draw_then_flip (w : World) (c : Config) (fuel i : nat) (v : Vars) :
  draw_then_flip (calls (polling_loop w c fuel i v)) = true.
Proof.
  apply (polling_loop_rule w c (fun _ _ m => draw_then_flip (calls m) = true));
    cbn [calls fst]; intros.
  - reflexivity.
  - apply draw_then_flip_condition.
  - apply draw_then_flip_app; [apply draw_then_flip_condition|].
    apply draw_then_flip_app; [apply draw_then_flip_block | reflexivity].
  - apply draw_then_flip_app; [apply draw_then_flip_condition|].
    apply draw_then_flip_app; [apply draw_then_flip_block | assumption].
Qed.

Lemma startup_draw_then_flip (w : World) :
  draw_then_flip (calls (startup w)) = true.
Proof.
  destruct (startup_spec w); unfold guarded;
    try destruct (isinstance_Exception e); reflexivity.
Qed.

(** *** What stands before the first wait and after a trigger text *)

Lemma app_cons_split (t1 t2 a b : list Event) (ev : Event) :
  t1 ++ t2 = a ++ ev :: b ->
  (exists b', t1 = a ++ ev :: b' /\ b = b' ++ t2) \/
  (exists a', a = t1 ++ a' /\ t2 = a' ++ ev :: b).
Proof.
  revert a. induction t1 as [|x t1 IH]; intros a E.
  - right. exists a. split; [reflexivity | exact E].
  - destruct a as [|y a]; cbn [app] in E; injection E as -> E.
    + left. exists t1. split; [reflexivity | symmetry; exact E].
    + destruct (IH a E) as [(b' & -> & ->)|(a' & -> & ->)].
      * left. exists b'. split; reflexivity.
      * right. exists a'. split; reflexivity.
Qed.

Lemma none_preceded (P : Event -> bool) (pre t : list Event) :
  Forall (fun ev => P ev = false) t -> preceded_by P pre t.
Proof.
  intros H t1 ev t2 -> HP.
  apply Forall_app in H as [_ H]. inversion H; subst. congruence.
Qed.

Lemma none_followed (P : Event -> bool) (post t : list Event) :
  Forall (fun ev => P ev = false) t -> followed_by P post t.
Proof.
  intros H t1 ev t2 -> HP.
  apply Forall_app in H as [_ H]. inversion H; subst. congruence.
Qed.

Lemma preceded_by_app (P : Event -> bool) (pre t1 t2 : list Event) :
  preceded_by P pre t1 -> preceded_by P pre t2 -> preceded_by P pre (t1 ++ t2).
Proof.
  intros H1 H2 a ev b E HP.
  destruct (app_cons_split _ _ _ _ _ E) as [(b' & E1 & _)|(a' & -> & E2)].
  - exact (H1 _ _ _ E1 HP).
  - destruct (H2 _ _ _ E2 HP) as (a'' & ->).
    exists (t1 ++ a''). apply app_assoc.
Qed.

Lemma followed_by_app (P : Event -> bool) (post t1 t2 : list Event) :
  followed_by P post t1 -> followed_by P post t2 -> followed_by P post (t1 ++ t2).
Proof.
  intros H1 H2 a ev b E HP.
  destruct (app_cons_split _ _ _ _ _ E) as [(b' & E1 & ->)|(a' & _ & E2)].
  - destruct (H1 _ _ _ E1 HP) as (b'' & ->).
    exists (b'' ++ t2). symmetry. apply app_assoc.
  - exact (H2 _ _ _ E2 HP).
Qed.

Lemma wait_after_its_text (k : Z) (r : PyExn + bool) :
  preceded_by is_first_wait wait_text_shown
              (wait_text_shown ++ [St_waitForTrigger k r]).
Proof.
  intros t1 ev t2 E HP. unfold wait_text_shown in E. cbn [app] in E.
  destruct t1 as [|a [|b [|c [|d t1]]]]; cbn [app] in E; injection E;
    intros; subst; try discriminate HP.
  - exists []. reflexivity.
  - destruct t1; discriminate.
Qed.

Lemma text_before_its_draw (cnt : Z) (onset delta : Q) (skip : Z) :
  followed_by is_trigger_text trigger_text_shown
              ([Logging_flush; StimTrigger_setText cnt onset delta skip]
               ++ trigger_text_shown).
Proof.
  intros t1 ev t2 E HP. unfold trigger_text_shown in E. cbn [app] in E.
  destruct t1 as [|a [|b [|c [|d t1]]]]; cbn [app] in E; injection E;
    intros; subst; try discriminate HP.
  - exists []. reflexivity.
  - destruct t1; discriminate.
Qed.

Lemma until_create_no_wait (w : World) :
  Forall (fun ev => is_first_wait ev = false) (until_create w).
Proof. unfold until_create, dialog_shown. repeat constructor. Qed.

Lemma error_exit_no_wait (e : PyExn) :
  Forall (fun ev => is_first_wait ev = false) (error_exit e).
Proof. repeat constructor. Qed.

Lemma until_wait_prepared (w : World) (c : Config) (k : Z) (r : PyExn + bool)
  (rest : list Event) :
  Forall (fun ev => is_first_wait ev = false) rest ->
  preceded_by is_first_wait wait_text_shown
              (until_wait w c ++ St_waitForTrigger k r :: rest).
Proof.
  intros Hrest.
  change (until_wait w c ++ St_waitForTrigger k r :: rest)
    with ((until_create w ++ [create_call c None; St_open None]) ++
          (wait_text_shown ++ [St_waitForTrigger k r]) ++ rest).
  apply preceded_by_app.
  - apply none_preceded. apply Forall_app. split.
    + apply until_create_no_wait.
    + repeat constructor.
  - apply preceded_by_app.
    + apply wait_after_its_text.
    + apply none_preceded. assumption.
Qed.

Lemma startup_wait_prepared (w : World) :
  preceded_by is_first_wait wait_text_shown (calls (startup w)).
Proof.
  destruct (startup_spec w); unfold guarded;
    try destruct (isinstance_Exception e); cbn [calls fst];
    try rewrite <- app_assoc; cbn [app];
    try (apply until_wait_prepared; repeat constructor);
    apply none_preceded;
    repeat (apply Forall_app; split);
    try apply until_create_no_wait; try apply error_exit_no_wait;
    unfold dialog_shown; repeat constructor.
Qed.

Lemma loop_call_no_wait (skip : Z) (t : list Event) :
  Forall (fun ev => is_loop_call skip ev = true) t ->
  Forall (fun ev => is_first_wait ev = false) t.
Proof.
  apply Forall_impl. intros ev H. destruct ev; try reflexivity; discriminate H.
Qed.

Lemma output_call_no_wait (t : list Event) :
  Forall (fun ev => is_output_call ev = true) t ->
  Forall (fun ev => is_first_wait ev = false) t.
Proof.
  apply Forall_impl. intros ev H. destruct ev; try reflexivity; discriminate H.
Qed.

Lemma output_call_no_text (t : list Event) :
  Forall (fun ev => is_output_call ev = true) t ->
  Forall (fun ev => is_trigger_text ev = false) t.
Proof.
  apply Forall_impl. intros ev H. destruct ev; try reflexivity; discriminate H.
Qed.

Lemma startup_no_text (w : World) :
  Forall (fun ev => is_trigger_text ev = false) (calls (startup w)).
Proof.
  destruct (startup_spec w); unfold guarded;
    try destruct (isinstance_Exception e); repeat constructor.
Qed.

Lemma condition_no_text (w : World) (v : Vars) (i : nat) :
  Forall (fun ev => is_trigger_text ev = false) (condition_calls w v i).
Proof. unfold condition_calls. destruct (escape_pressed w i); repeat constructor. Qed.

Lemma block_text_shown (c : Config) (v : Vars) :
  followed_by is_trigger_text trigger_text_shown (block_calls c v).
Proof.
  unfold block_calls. destruct (triggered v).
  - apply text_before_its_draw.
  - apply none_followed. constructor.
Qed.

Lemma polling_loop_text_shown (w : World) (c : Config) (fuel i : nat) (v : Vars) :
  followed_by is_trigger_text trigger_text_shown (calls (polling_loop w c fuel i v)).
Proof.
  apply (polling_loop_rule w c
           (fun _ _ m => followed_by is_trigger_text trigger_text_shown (calls m)));
    cbn [calls fst]; intros.
  - apply none_followed. constructor.
  - apply none_followed. apply condition_no_text.
  - apply followed_by_app; [apply none_followed, condition_no_text|].
    apply followed_by_app; [apply block_text_shown|].
    apply none_followed. repeat constructor.
  - apply followed_by_app; [apply none_followed, condition_no_text|].
    apply followed_by_app; [apply block_text_shown|].
    change (St_getTrigger (inr (fst r)) :: calls m)
      with ([St_getTrigger (inr (fst r))] ++ calls m).
    apply followed_by_app; [apply none_followed; repeat constructor | assumption].
Qed.

Lemma demo_wait_prepared (w : World) (fuel : nat) :
  preceded_by is_first_wait wait_text_shown (calls (demo w fuel)).
Proof.
  pose proof (startup_wait_prepared w) as H0.
  destruct (demo_shape w fuel)
    as [(t0 & e & Hs & Hd)|(t0 & c & v0 & t & Hs & Hloop & Hd)];
    rewrite Hs in H0; cbn [calls fst] in H0.
  - rewrite Hd. exact H0.
  - pose proof (none_preceded _ wait_text_shown _ (loop_call_no_wait _ _ Hloop)) as Hl.
    destruct Hd as [[_ Hd]|[(e & _ & Hd)|(v' & _ & Hd)]];
      rewrite Hd; cbn [calls fst]; apply preceded_by_app; try assumption.
    apply preceded_by_app; [assumption|].
    apply none_preceded, output_call_no_wait, data_output_calls.
Qed.

Lemma demo_text_shown (w : World) (fuel : nat) :
  followed_by is_trigger_text trigger_text_shown (calls (demo w fuel)).
Proof.
  pose proof (none_followed _ trigger_text_shown _ (startup_no_text w)) as H0.
  destruct (demo_shape w fuel)
    as [(t0 & e & Hs & Hd)|(t0 & c & v0 & t & Hs & _ & Hd)];
    rewrite Hs in H0; cbn [calls fst] in H0.
  - rewrite Hd. exact H0.
  - pose proof (polling_loop_text_shown w c fuel 0 v0) as Hl.
    destruct Hd as [[Hp Hd]|[(e & Hp & Hd)|(v' & Hp & Hd)]];
      rewrite Hp in Hl; cbn [calls fst] in Hl; rewrite Hd; cbn [calls fst];
      apply followed_by_app; try assumption.
    apply followed_by_app; [assumption|].
    apply none_followed, output_call_no_text, data_output_calls.
Qed.

(** What is drawn is put on the screen at once, and at the moments that
    matter.  In every run each draw of a stimulus is followed at once by
    win.flip() and the window is flipped at no other point.  Wherever
    waitForTrigger is called, the "Wait for trigger..." text was drawn
    and flipped just before it (only the print of "Waiting for the
    Trigger" stands between); wherever the trigger text is set, it is
    drawn and flipped right after.  And when the library can be created
    and opened, the run does draw and flip the waiting text and then
    calls waitForTrigger. *)
Theorem every_draw_is_flipped (w : World) (fuel : nat) :
  draw_then_flip (calls (demo w fuel)) = true /\
  (forall t1 k r t2,
      calls (demo w fuel) = t1 ++ St_waitForTrigger k r :: t2 ->
      exists t1',
        t1 = t1' ++ [Stim_draw stimScanner; Win_flip;
                     Builtin_print "Waiting for the Trigger"]) /\
  (forall t1 cnt onset delta skip t2,
      calls (demo w fuel) = t1 ++ StimTrigger_setText cnt onset delta skip :: t2 ->
      exists t2', t2 = [Stim_draw stimTrigger; Win_flip] ++ t2') /\
  (forall z cfg st0 st1,
      dlg_OK w = true ->
      int (dlg_skip_scans w) = inr z ->
      select_MR_settings (dlg_triggering w) z = inr cfg ->
      lib_create w (dlg_triggering w) cfg = inr st0 ->
      lib_open w st0 = inr st1 ->
      exists t1 t2,
        calls (demo w fuel)
        = t1 ++ [Stim_draw stimScanner; Win_flip;
                 Builtin_print "Waiting for the Trigger";
                 St_waitForTrigger z (flag_of (lib_waitForTrigger w z st1))] ++ t2).
Proof.
  split; [|split; [|split]].
  - pose proof (startup_draw_then_flip w) as H0.
    destruct (demo_shape w fuel)
      as [(t0 & e & Hs & Hd)|(t0 & c & v0 & t & Hs & _ & Hd)];
      rewrite Hs in H0; cbn [calls fst] in H0.
    + rewrite Hd. exact H0.
    + pose proof (polling_loop_draw_then_flip w c fuel 0 v0) as Hl.
      destruct Hd as [[Hp Hd]|[(e & Hp & Hd)|(v' & Hp & Hd)]];
        rewrite Hp in Hl; cbn [calls fst] in Hl; rewrite Hd; cbn [calls fst].
      * apply draw_then_flip_app; assumption.
      * apply draw_then_flip_app; assumption.
      * apply draw_then_flip_app; [assumption|].
        apply draw_then_flip_app; [assumption|].
        destruct (data_output_shape (deltaTriggerTimeArray v'))
          as [[_ Ho]|(x & l & mx & mn & _ & _ & _ & Ho)]; rewrite Ho; reflexivity.
  - intros t1 k r t2 E.
    exact (demo_wait_prepared w fuel t1 (St_waitForTrigger k r) t2 E eq_refl).
  - intros t1 cnt onset delta skip t2 E.
    exact (demo_text_shown w fuel t1 (StimTrigger_setText cnt onset delta skip)
             t2 E eq_refl).
  - intros z cfg st0 st1 HOK Hint Hsel Hcr Hop.
    destruct (demo_reaches_the_wait w fuel z cfg st0 st1 HOK Hint Hsel Hcr Hop)
      as (tail & ->).
    exists (until_create w ++ [create_call (config_of w z cfg) None; St_open None]),
      tail.
    unfold until_wait. rewrite <- !app_assoc. reflexivity.
Qed.

(** Keyboard triggering with a trigger at every poll: the waiting text is
    on the screen when the first wait starts. *)
Lemma waiting_text_shown_in_steady_run :
  exists t1 t2,
    calls (demo Worlds.steady 10)
    = t1 ++ [Stim_draw stimScanner; Win_flip;
             Builtin_print "Waiting for the Trigger";
             St_waitForTrigger 0 (inr true)] ++ t2.
Proof.
  exact (proj2 (proj2 (proj2 (every_draw_is_flipped Worlds.steady 10)))
           0%Z [("keyList", PStr "t"); ("maxWait", PInt 9999999)]
           (mkSt 0 0) (mkSt 0 0) eq_refl eq_refl eq_refl eq_refl eq_refl).
Defined.
